(** * viewchart: the pattern confidence scorer

    A shallow embedding of the scorer of [server/lib/openai.ts], of the
    wrapper of [server/lib/chart-analyzer.ts] and of the learning rows of
    [server/storage.ts].

    Numbers.  A JavaScript number that only ever holds a counter is a [Z];
    every other number is an exact rational [Q], except where a claim depends
    on the rounding of IEEE 754 arithmetic: the statistics blender is also
    modelled on binary64 numbers (module [Double]), and that model is the one
    its blending formula is checked against.  Where the source can produce or
    receive a non-finite number (the normalisation of the selection weights,
    the numbers of an analysis of the external model) the model uses [JSNum],
    which adds +Infinity, -Infinity and NaN.  [Math.random()] is an explicit
    argument; [new Date()] is an explicit clock reading. *)

From Stdlib Require Import ZArith QArith Qround Qabs Qminmax Lqa Lia List String Ascii.
From Stdlib Require Import Sorted Permutation.
From Stdlib Require PrimFloat SpecFloat FloatOps.
From stdpp Require Import gmap strings.

Local Open Scope Z_scope.

(* ===================================================================== *)
(** ** JavaScript numbers and the [Math] functions the source uses       *)
(* ===================================================================== *)

Module JS.

(** [Math.floor] *)
Definition Math_floor (x : Q) : Z := Qfloor x.

(** [Math.round]: the nearest integer, a half rounds up. *)
Definition Math_round (x : Q) : Z := Qfloor (x + (1 # 2))%Q.

(** [Math.min] and [Math.max] on finite numbers. *)
Definition Math_min (a b : Q) : Q := if Qle_bool a b then a else b.
Definition Math_max (a b : Q) : Q := if Qle_bool a b then b else a.

(** [Math.abs] *)
Definition Math_abs (x : Q) : Q := Qabs x.

(** Truthiness of a [number | undefined]: defined and not zero. *)
Definition truthy (x : option Q) : bool :=
  match x with
  | Some q => negb (Qeq_bool q 0%Q)
  | None => false
  end.

(** [x || d] on a [number | undefined]. *)
Definition or_else (x : option Q) (d : Q) : Q :=
  match x with
  | Some q => if Qeq_bool q 0%Q then d else q
  | None => d
  end.

(** The value of a truthy [number | undefined]. *)
Definition num (x : option Q) : Q := or_else x 0%Q.

(** A number that may have left the finite ones. *)
Inductive JSNum : Type :=
| Fin (q : Q)
| PosInf
| NegInf
| NaN.

(** [a / b] for finite [a] and [b]; the sums of the source that reach a
    zero divisor are positive zeros. *)
Definition div (a b : Q) : JSNum :=
  if Qeq_bool b 0 then
    (if Qeq_bool a 0 then NaN
     else if Qle_bool 0 a then PosInf else NegInf)
  else Fin (a / b).

(** [a + b] *)
Definition add (a b : JSNum) : JSNum :=
  match a, b with
  | NaN, _ | _, NaN => NaN
  | PosInf, NegInf | NegInf, PosInf => NaN
  | PosInf, _ | _, PosInf => PosInf
  | NegInf, _ | _, NegInf => NegInf
  | Fin x, Fin y => Fin (x + y)
  end.

(** [r <= c] for a finite [r]; every comparison with NaN is false. *)
Definition le (r : Q) (c : JSNum) : bool :=
  match c with
  | Fin q => Qle_bool r q
  | PosInf => true
  | NegInf | NaN => false
  end.

(** Is the number one of the IEEE special values? *)
Definition is_finite (c : JSNum) : bool :=
  match c with Fin _ => true | _ => false end.

(** [Math.round], [Math.max] and [Math.min] on a number that may be one of
    the special values: NaN comes out of each of them whenever it goes in,
    an infinity is ordered like a number beyond every finite one. *)
Definition num_round (x : JSNum) : JSNum :=
  match x with
  | Fin q => Fin (inject_Z (Math_round q))
  | PosInf => PosInf
  | NegInf => NegInf
  | NaN => NaN
  end.

Definition num_max (a b : JSNum) : JSNum :=
  match a, b with
  | NaN, _ | _, NaN => NaN
  | PosInf, _ | _, PosInf => PosInf
  | NegInf, x | x, NegInf => x
  | Fin x, Fin y => Fin (Math_max x y)
  end.

Definition num_min (a b : JSNum) : JSNum :=
  match a, b with
  | NaN, _ | _, NaN => NaN
  | NegInf, _ | _, NegInf => NegInf
  | PosInf, x | x, PosInf => x
  | Fin x, Fin y => Fin (Math_min x y)
  end.

End JS.

(* ===================================================================== *)
(** ** server/lib/openai.ts                                              *)
(* ===================================================================== *)

Module Openai.
Import JS.

(** [Date], as the reading of a clock. *)
Definition Date := Z.

Inductive Prediction : Type := bullish | bearish.

(** [TAnalysisHistoryItem] *)
Record TAnalysisHistoryItem : Type := {
  h_id : string;
  h_imageUrl : string;
  h_pattern : string;
  h_prediction : Prediction;
  h_confidence : Q;
  h_timestamp : string;
  h_feedback : option bool  (* boolean | null *)
}.

(** [TAnalysisResult] *)
Record TAnalysisResult : Type := {
  id : string;
  imageUrl : string;
  pattern : string;
  prediction : Prediction;
  confidence : Q;
  winRate : Q;
  sampleSize : Q;
  explanation : string;
  timestamp : string;
  feedback : option bool
}.

(** The 5 categories of [MARKET_PATTERNS], in the order of their keys. *)
Definition MARKET_PATTERNS : list (string * list string) :=
  [ ("continuation"%string,
     [ "Higher Highs & Higher Lows (Uptrend)";
       "Lower Highs & Lower Lows (Downtrend)";
       "Moving Average Alignment (Price above EMAs)";
       "Moving Average Alignment (Price below EMAs)";
       "Bollinger Band Squeeze" ]%string);
    ("reversal"%string,
     [ "Break of Structure (Failed Higher Highs)";
       "Break of Structure (Failed Lower Lows)";
       "RSI Divergence";
       "MACD Divergence";
       "Exhaustion Move (Overextension beyond Bollinger Bands)" ]%string);
    ("consolidation"%string,
     [ "Inside Bar Pattern";
       "Narrow Range Bars";
       "Ascending Triangle Formation";
       "Descending Triangle Formation";
       "Symmetrical Triangle Formation" ]%string);
    ("breakout"%string,
     [ "Range Breakout (Above Resistance)";
       "Range Breakout (Below Support)";
       "Moving Average Crossover (Bullish)";
       "Moving Average Crossover (Bearish)";
       "Volume Spike Breakout" ]%string);
    ("candlestick"%string,
     [ "Bullish Engulfing Pattern";
       "Bearish Engulfing Pattern";
       "Hammer Candlestick";
       "Inverted Hammer Candlestick";
       "Morning Star Pattern";
       "Evening Star Pattern";
       "Doji Formation" ]%string) ].

(** [Object.keys(MARKET_PATTERNS)] *)
Definition categories : list string := map fst MARKET_PATTERNS.

(** [MARKET_PATTERNS[key]] *)
Fixpoint patterns_of (key : string) (table : list (string * list string))
  : option (list string) :=
  match table with
  | [] => None
  | (k, ps) :: rest => if String.eqb k key then Some ps else patterns_of key rest
  end.

(** Every pattern name of [MARKET_PATTERNS]. *)
Definition taxonomy : list string := concat (map snd MARKET_PATTERNS).

(** An entry of [learnedPatterns]. *)
Record PatternData : Type := {
  confidenceAdjustment : Z;
  feedbackCount : Z;
  successCount : Z;
  lastUpdated : Date
}.

(** An entry of [tradingPairProfile]. *)
Record PairData : Type := {
  patterns : gmap string Z;
  volatility : Q;
  lastSeenPrice : Q;
  firstSeenDate : Date;
  pairLastUpdated : Date
}.

(** What [extractTradingInfo] returns. *)
Record TradingInfo : Type := {
  pair : string;
  entry : option Q;
  stopLoss : option Q;
  takeProfit : option Q;
  volume : option string;
  timeframe : option string;
  indicators : option (list string)
}.

(** *** updateLearningModel (lines 394-425) *)

Definition updateLearningModel (analysis : TAnalysisResult) (isCorrect : bool)
    (now : Date) (learnedPatterns : gmap string PatternData)
  : gmap string PatternData :=
  let pattern := analysis.(pattern) in
  let learnedPatterns :=
    match learnedPatterns !! pattern with
    | Some _ => learnedPatterns
    | None =>
        <[pattern := {| confidenceAdjustment := 0; feedbackCount := 0;
                        successCount := 0; lastUpdated := now |}]> learnedPatterns
    end in
  match learnedPatterns !! pattern with
  | None => learnedPatterns
  | Some patternData =>
      let feedbackCount' := patternData.(feedbackCount) + 1 in
      let successCount' :=
        if isCorrect then patternData.(successCount) + 1
        else patternData.(successCount) in
      let adjustment :=
        if isCorrect then patternData.(confidenceAdjustment) + 1
        else patternData.(confidenceAdjustment) - 1 in
      <[pattern := {| confidenceAdjustment := Z.max (-10) (Z.min 10 adjustment);
                      feedbackCount := feedbackCount';
                      successCount := successCount';
                      lastUpdated := now |}]> learnedPatterns
  end.

(** A run of feedback calls, the oldest first: each call has its analysis,
    its verdict and its clock reading. *)
Definition feedback_run (calls : list (TAnalysisResult * bool * Date))
    (learnedPatterns : gmap string PatternData) : gmap string PatternData :=
  fold_left (fun table '(analysis, isCorrect, now) =>
               updateLearningModel analysis isCorrect now table)
            calls learnedPatterns.

(** An analysis whose pattern is [p]; the other fields do not matter to
    the feedback integrator. *)
Definition analysis_of (p : string) : TAnalysisResult :=
  {| id := ""; imageUrl := ""; pattern := p; prediction := bullish;
     confidence := 0; winRate := 0; sampleSize := 0; explanation := "";
     timestamp := ""; feedback := None |}.

(** *** enhancedPatternRecognition (lines 159-276) *)

(** [patternData.successCount / patternData.feedbackCount]; the source
    evaluates it only where [feedbackCount > 0]. *)
Definition successRate (patternData : PatternData) : Q :=
  inject_Z patternData.(successCount) / inject_Z patternData.(feedbackCount).

(** The body of the [patterns.map] of lines 177-209: the weight of one
    pattern. *)
Definition patternWeight (learnedPatterns : gmap string PatternData)
    (tradingPairProfile : gmap string PairData) (tradingInfo : TradingInfo)
    (historicalAnalyses : list TAnalysisHistoryItem) (pattern : string) : Q :=
  let weight : Q := 1%Q in
  let weight :=
    match learnedPatterns !! pattern with
    | Some patternData =>
        let weight := (weight + inject_Z patternData.(confidenceAdjustment))%Q in
        if 0 <? patternData.(feedbackCount)
        then (weight * ((1 # 2) + successRate patternData))%Q
        else weight
    | None => weight
    end in
  let weight :=
    match tradingPairProfile !! tradingInfo.(pair) with
    | Some pairData =>
        match pairData.(patterns) !! pattern with
        | Some occurrences =>
            if occurrences =? 0 then weight
            else (weight * (1 + inject_Z occurrences / 10))%Q
        | None => weight
        end
    | None => weight
    end in
  let patternInHistory :=
    length (List.filter (fun item =>
                      String.eqb item.(h_pattern) pattern
                      && match item.(h_feedback) with
                         | Some true => true
                         | _ => false
                         end)
                   historicalAnalyses) in
  (weight * (1 + inject_Z (Z.of_nat patternInHistory) / 10))%Q.

Definition patternWeights (learnedPatterns : gmap string PatternData)
    (tradingPairProfile : gmap string PairData) (tradingInfo : TradingInfo)
    (historicalAnalyses : list TAnalysisHistoryItem) (patterns : list string)
  : list (string * Q) :=
  map (fun pattern =>
         (pattern, patternWeight learnedPatterns tradingPairProfile tradingInfo
                                 historicalAnalyses pattern))
      patterns.

(** [patternWeights.reduce((sum, item) => sum + item.weight, 0)] *)
Definition totalWeight (weights : list (string * Q)) : Q :=
  fold_left (fun sum item => (sum + snd item)%Q) weights 0%Q.

(** The normalisation of lines 213-216: every weight over the total. *)
Definition normalize (weights : list (string * Q)) : list (string * JSNum) :=
  let total := totalWeight weights in
  map (fun item => (fst item, JS.div (snd item) total)) weights.

(** The loop of lines 223-229: the first pattern whose cumulative weight
    reaches the draw, the pattern selected so far when there is none. *)
Fixpoint weightedSelect (rand : Q) (cumulativeWeight : JSNum)
    (items : list (string * JSNum)) (selectedPattern : string) : string :=
  match items with
  | [] => selectedPattern
  | item :: rest =>
      let cumulativeWeight := JS.add cumulativeWeight (snd item) in
      if JS.le rand cumulativeWeight then fst item
      else weightedSelect rand cumulativeWeight rest selectedPattern
  end.

(** [Math.random() > 0.5 ? "bullish" : "bearish"] *)
Definition randomDirection (r : Q) : Prediction :=
  if Qle_bool r (1 # 2) then bearish else bullish.

Record Recognition : Type := {
  r_pattern : string;
  r_prediction : Prediction;
  r_confidence : Q
}.

(** The four draws of [Math.random()] of one call, in the order of the
    source: the category, the weighted selection, the base confidence and
    the direction (drawn only where no price comparison decides it). *)
Record Draws : Type := {
  d_category : Q;
  d_select : Q;
  d_confidence : Q;
  d_direction : Q
}.

(** Lines 172-174: the patterns of the category drawn.  [None] stands for
    the [undefined] that an index out of range reads. *)
Definition selectCategory (rand : Q) : option (list string) :=
  let index :=
    Math_floor (rand * inject_Z (Z.of_nat (length categories)))%Q in
  if index <? 0 then None else
  match nth_error categories (Z.to_nat index) with
  | None => None
  | Some selectedCategory => patterns_of selectedCategory MARKET_PATTERNS
  end.

(** Lines 233-254: the direction, and the confidence after the price move
    and the volatility of the pair. *)
Definition predictDirection (tradingPairProfile : gmap string PairData)
    (tradingInfo : TradingInfo) (random : Draws) (confidence : Q)
  : Prediction * Q :=
  match tradingPairProfile !! tradingInfo.(pair) with
  | Some pairData =>
      let '(prediction, confidence) :=
        if negb (Qeq_bool pairData.(lastSeenPrice) 0)
           && truthy tradingInfo.(entry)
        then
          let entry := num tradingInfo.(entry) in
          let priceChange :=
            Math_abs (entry / pairData.(lastSeenPrice) - 1)%Q in
          (if Qle_bool entry pairData.(lastSeenPrice)
           then bearish else bullish,
           (confidence + Math_min (priceChange * 100)%Q 10%Q)%Q)
        else (randomDirection random.(d_direction), confidence) in
      (prediction,
       (confidence - Math_min (pairData.(volatility) * 10)%Q 15%Q)%Q)
  | None => (randomDirection random.(d_direction), confidence)
  end.

(** Lines 256-266: the confidence after what was learned about the
    selected pattern. *)
Definition adjustConfidence (learnedPatterns : gmap string PatternData)
    (selectedPattern : string) (confidence : Q) : Q :=
  match learnedPatterns !! selectedPattern with
  | Some patternData =>
      let confidence :=
        (confidence + inject_Z patternData.(confidenceAdjustment))%Q in
      if 0 <? patternData.(feedbackCount)
      then (confidence + (successRate patternData - (1 # 2)) * 20)%Q
      else confidence
  | None => confidence
  end.

(** [None] stands for the TypeError of [patterns.map] on [undefined], which
    the source reaches only with a category index out of range, and for the
    [undefined] pattern of an empty category, of which there is none. *)
Definition enhancedPatternRecognition
    (learnedPatterns : gmap string PatternData)
    (tradingPairProfile : gmap string PairData)
    (tradingInfo : TradingInfo)
    (historicalAnalyses : list TAnalysisHistoryItem)
    (random : Draws) : option Recognition :=
  match selectCategory random.(d_category) with
  | None => None
  | Some [] => None
  | Some ((first :: _) as patterns) =>
      let weights :=
        normalize (patternWeights learnedPatterns tradingPairProfile
                                  tradingInfo historicalAnalyses patterns) in
      let selectedPattern :=
        weightedSelect random.(d_select) (Fin 0%Q) weights first in
      let confidence : Q :=
        inject_Z (60 + Math_floor (random.(d_confidence) * 30)%Q) in
      let directed :=
        predictDirection tradingPairProfile tradingInfo random confidence in
      let confidence :=
        adjustConfidence learnedPatterns selectedPattern (snd directed) in
      Some {| r_pattern := selectedPattern;
              r_prediction := fst directed;
              r_confidence := Math_max 50%Q (Math_min 95%Q confidence) |}
  end.

(** *** generatePatternStatistics (lines 279-321) *)

Record Statistics : Type := {
  s_winRate : Z;
  s_sampleSize : Z
}.

Definition generatePatternStatistics
    (learnedPatterns : gmap string PatternData)
    (pattern : string) (historicalAnalyses : list TAnalysisHistoryItem)
    (randWinRate randSampleSize : Q) : Statistics :=
  let winRate := 65 + Math_floor (randWinRate * 20)%Q in
  let sampleSize := 150 + Math_floor (randSampleSize * 350)%Q in
  let '(winRate, sampleSize) :=
    match learnedPatterns !! pattern with
    | Some patternData =>
        if 0 <? patternData.(feedbackCount) then
          let learnedRate := (successRate patternData * 100)%Q in
          let blendFactor :=
            Math_min (inject_Z patternData.(feedbackCount) / 10)%Q (8 # 10)%Q in
          (Math_round (inject_Z winRate * (1 - blendFactor)
                       + learnedRate * blendFactor)%Q,
           sampleSize + patternData.(feedbackCount))
        else (winRate, sampleSize)
    | None => (winRate, sampleSize)
    end in
  let patternHistory :=
    List.filter (fun item => String.eqb item.(h_pattern) pattern)
           historicalAnalyses in
  if 0 <? Z.of_nat (length patternHistory) then
    let correctPredictions :=
      length (List.filter (fun item => match item.(h_feedback) with
                                  | Some true => true
                                  | _ => false
                                  end) patternHistory) in
    let historyRate :=
      (inject_Z (Z.of_nat correctPredictions)
       / inject_Z (Z.of_nat (length patternHistory)) * 100)%Q in
    let historyFactor :=
      Math_min (inject_Z (Z.of_nat (length patternHistory)) / 20)%Q (6 # 10)%Q in
    {| s_winRate := Math_round (inject_Z winRate * (1 - historyFactor)
                                + historyRate * historyFactor)%Q;
       s_sampleSize := sampleSize + Z.of_nat (length patternHistory) |}
  else {| s_winRate := winRate; s_sampleSize := sampleSize |}.

(** *** analyzeChartImage, step 6 (lines 468-492): the profile of the pair *)

Definition updatePairProfile (tradingInfo : TradingInfo) (pattern : string)
    (now : Date) (tradingPairProfile : gmap string PairData)
  : gmap string PairData :=
  match tradingPairProfile !! tradingInfo.(pair) with
  | None =>
      <[tradingInfo.(pair) :=
          {| patterns := ∅;
             volatility := (2 # 100)%Q;
             lastSeenPrice := or_else tradingInfo.(entry) 0%Q;
             firstSeenDate := now;
             pairLastUpdated := now |}]> tradingPairProfile
  | Some pairData =>
      let volatility :=
        if truthy tradingInfo.(entry)
           && negb (Qeq_bool pairData.(lastSeenPrice) 0)
        then
          let priceChange :=
            Math_abs (num tradingInfo.(entry) / pairData.(lastSeenPrice) - 1)%Q in
          (pairData.(volatility) * (7 # 10) + priceChange * (3 # 10))%Q
        else pairData.(volatility) in
      let occurrences :=
        match pairData.(patterns) !! pattern with
        | Some n => n    (* 0 || 0 is 0 *)
        | None => 0
        end in
      <[tradingInfo.(pair) :=
          {| patterns := <[pattern := occurrences + 1]> pairData.(patterns);
             volatility := volatility;
             lastSeenPrice := or_else tradingInfo.(entry) pairData.(lastSeenPrice);
             firstSeenDate := pairData.(firstSeenDate);
             pairLastUpdated := now |}]> tradingPairProfile
  end.

(** *** Inputs of the scenarios *)

(** The trading information of a pair seen at a price. *)
Definition info_at (symbol : string) (price : option Q) : TradingInfo :=
  {| pair := symbol; entry := price; stopLoss := None; takeProfit := None;
     volume := None; timeframe := None; indicators := None |}.

(** The draws that select the pattern [i] of the category [c], of [n]
    patterns, while nothing has been learned: all weights are [1/n]. *)
Definition draws_for (c i n : Z) : Draws :=
  {| d_category := (2 * c + 1) # 10;
     d_select := (2 * i + 1) # Z.to_pos (2 * n);
     d_confidence := 0;
     d_direction := 0 |}.

(** One such draw for each name of the taxonomy, in its order. *)
Definition draws_of_taxonomy : list Draws :=
  concat
    (map (fun '(c, patterns) =>
            map (fun i => draws_for c i (Z.of_nat (length patterns)))
                (map Z.of_nat (seq 0 (length patterns))))
         (combine (map Z.of_nat (seq 0 (length MARKET_PATTERNS)))
                  (map snd MARKET_PATTERNS))).

(** [n] feedback calls for the pattern [p], all with the same verdict, at
    the clock readings 1 to [n]. *)
Definition feedback_times (n : nat) (p : string) (verdict : bool)
  : list (TAnalysisResult * bool * Date) :=
  map (fun t => (analysis_of p, verdict, Z.of_nat t)) (seq 1 n).

(** One "incorrect" verdict for each pattern of a list. *)
Definition one_incorrect_each (patterns : list string)
  : list (TAnalysisResult * bool * Date) :=
  map (fun p => (analysis_of p, false, 0)) patterns.

(** [MARKET_PATTERNS.continuation] *)
Definition continuation : list string :=
  default [] (patterns_of "continuation" MARKET_PATTERNS).

(** A draw of [Math.random()]: a number of [0, 1). *)
Definition unit_interval (r : Q) : Prop := (0 <= r /\ r < 1)%Q.

End Openai.

(* ===================================================================== *)
(** ** The statistics blender on IEEE 754 doubles                        *)
(* ===================================================================== *)

(** JavaScript numbers are binary64, and the blender rounds the result of
    two multiplications and an addition: whether [Math.round] sees 31.5 or
    31.499999999999996 decides the win rate.  Here the numbers are the
    primitive binary64 numbers, with their operations rounding to nearest,
    ties to even. *)
Module Double.
Import PrimFloat SpecFloat FloatOps Openai.
#[local] Set Warnings "-inexact-float".

(** The double nearest to an integer: how a counter or a length enters the
    arithmetic.  Exact up to 2^53. *)
Definition of_Z (z : Z) : float :=
  SF2Prim (binary_normalize prec emax z 0 false).

(** [Math.floor]: the largest integer not above [x]; zeros, infinities and
    NaN are returned as they are. *)
Definition Math_floor (x : float) : float :=
  match Prim2SF x with
  | S754_finite s m e =>
      let z := cond_Zopp s (Zpos m) in
      of_Z (if 0 <=? e then z * 2 ^ e else z / 2 ^ (- e))
  | _ => x
  end.

(** [Math.round]: [floor(x + 0.5)] computed without rounding error; a
    result of zero keeps the sign of [x]. *)
Definition Math_round (x : float) : float :=
  match Prim2SF x with
  | S754_finite s m e =>
      let z := cond_Zopp s (Zpos m) in
      let r := if 0 <=? e then z * 2 ^ e
               else (z + 2 ^ (- e - 1)) / 2 ^ (- e) in
      if (r =? 0) && s then neg_zero else of_Z r
  | _ => x
  end.

(** [Math.min]: NaN when one of the two is NaN, and -0 below +0. *)
Definition Math_min (a b : float) : float :=
  if is_nan a || is_nan b then nan
  else if (a <? b)%float then a
  else if (b <? a)%float then b
  else if get_sign a then a else b.

Record Statistics : Type := {
  winRate : float;
  sampleSize : float
}.

(** [generatePatternStatistics] (lines 279-321), the two draws of
    [Math.random()] as arguments. *)
Definition generatePatternStatistics
    (learnedPatterns : gmap string PatternData)
    (pattern : string) (historicalAnalyses : list TAnalysisHistoryItem)
    (randWinRate randSampleSize : float) : Statistics :=
  let winRate := (65 + Math_floor (randWinRate * 20))%float in
  let sampleSize := (150 + Math_floor (randSampleSize * 350))%float in
  let '(winRate, sampleSize) :=
    match learnedPatterns !! pattern with
    | Some patternData =>
        if (0 <? patternData.(feedbackCount))%Z then
          let learnedRate :=
            (of_Z patternData.(successCount)
             / of_Z patternData.(feedbackCount) * 100)%float in
          let blendFactor :=
            Math_min (of_Z patternData.(feedbackCount) / 10)%float
                     0.8%float in
          (Math_round (winRate * (1 - blendFactor)
                       + learnedRate * blendFactor)%float,
           (sampleSize + of_Z patternData.(feedbackCount))%float)
        else (winRate, sampleSize)
    | None => (winRate, sampleSize)
    end in
  let patternHistory :=
    List.filter (fun item => String.eqb item.(h_pattern) pattern)
           historicalAnalyses in
  if (0 <? Z.of_nat (length patternHistory))%Z then
    let correctPredictions :=
      length (List.filter (fun item => match item.(h_feedback) with
                                  | Some true => true
                                  | _ => false
                                  end) patternHistory) in
    let historyRate :=
      (of_Z (Z.of_nat correctPredictions)
       / of_Z (Z.of_nat (length patternHistory)) * 100)%float in
    let historyFactor :=
      Math_min (of_Z (Z.of_nat (length patternHistory)) / 20)%float
               0.6%float in
    {| winRate := Math_round (winRate * (1 - historyFactor)
                              + historyRate * historyFactor)%float;
       sampleSize :=
         (sampleSize + of_Z (Z.of_nat (length patternHistory)))%float |}
  else {| winRate := winRate; sampleSize := sampleSize |}.



End Double.

(* ===================================================================== *)
(** ** server/storage.ts: the rows of [pattern_learning]                 *)
(* ===================================================================== *)

Module Storage.

(** A row of the table [patternLearning] of the schema. *)
Record LearningRow : Type := {
  row_id : Z;
  patternId : Z;
  feedbackCount : Z;
  successCount : Z;
  confidenceAdjustment : Z;
  lastUpdated : Z
}.

(** The table and the next value of its serial key. *)
Record LearningTable : Type := {
  rows : list LearningRow;
  nextId : Z
}.

Definition emptyTable : LearningTable := {| rows := []; nextId := 1 |}.

(** [db.update(patternLearning).set(...).where(eq(patternLearning.id, id))] *)
Definition updateWhereId (id : Z) (set : LearningRow -> LearningRow)
    (rs : list LearningRow) : list LearningRow :=
  map (fun r => if r.(row_id) =? id then set r else r) rs.

(** [DatabaseStorage.updatePatternLearning] (lines 368-400), a call whose
    two statements run with no statement of another call between them.
    [available] is false when the [select] throws: the error is caught and
    logged, and nothing is written. *)
Definition updatePatternLearning (available : bool) (pid : Z)
    (isCorrect : bool) (now : Z) (table : LearningTable) : LearningTable :=
  if negb available then table else
  match List.filter (fun r => r.(patternId) =? pid) table.(rows) with
  | existingLearning :: _ =>
      {| rows :=
           updateWhereId existingLearning.(row_id)
             (fun r =>
                {| row_id := r.(row_id);
                   patternId := r.(patternId);
                   feedbackCount := existingLearning.(feedbackCount) + 1;
                   successCount :=
                     if isCorrect then existingLearning.(successCount) + 1
                     else existingLearning.(successCount);
                   confidenceAdjustment :=
                     if isCorrect
                     then Z.min (existingLearning.(confidenceAdjustment) + 1) 10
                     else Z.max (existingLearning.(confidenceAdjustment) - 1) (-10);
                   lastUpdated := now |})
             table.(rows);
         nextId := table.(nextId) |}
  | [] =>
      {| rows :=
           table.(rows) ++
           [ {| row_id := table.(nextId);
                patternId := pid;
                feedbackCount := 1;
                successCount := if isCorrect then 1 else 0;
                confidenceAdjustment := if isCorrect then 1 else -1;
                lastUpdated := now |} ];
         nextId := table.(nextId) + 1 |}
  end.

(** The two statements of [updatePatternLearning], apart.  The method
    awaits the [select] and then the [insert] or the [update], in no
    transaction: the statements of another call can run between the two. *)
Definition selectLearning (pid : Z) (table : LearningTable)
  : option LearningRow :=
  match List.filter (fun r => r.(patternId) =? pid) table.(rows) with
  | existingLearning :: _ => Some existingLearning
  | [] => None
  end.

Definition writeLearning (existingLearning : option LearningRow) (pid : Z)
    (isCorrect : bool) (now : Z) (table : LearningTable) : LearningTable :=
  match existingLearning with
  | Some existingLearning =>
      {| rows :=
           updateWhereId existingLearning.(row_id)
             (fun r =>
                {| row_id := r.(row_id);
                   patternId := r.(patternId);
                   feedbackCount := existingLearning.(feedbackCount) + 1;
                   successCount :=
                     if isCorrect then existingLearning.(successCount) + 1
                     else existingLearning.(successCount);
                   confidenceAdjustment :=
                     if isCorrect
                     then Z.min (existingLearning.(confidenceAdjustment) + 1) 10
                     else Z.max (existingLearning.(confidenceAdjustment) - 1) (-10);
                   lastUpdated := now |})
             table.(rows);
         nextId := table.(nextId) |}
  | None =>
      {| rows :=
           table.(rows) ++
           [ {| row_id := table.(nextId);
                patternId := pid;
                feedbackCount := 1;
                successCount := if isCorrect then 1 else 0;
                confidenceAdjustment := if isCorrect then 1 else -1;
                lastUpdated := now |} ];
         nextId := table.(nextId) + 1 |}
  end.

(** Two calls for one pattern that overlap, as two requests of the
    feedback route can: both have selected before either writes. *)
Definition overlapped (pid : Z) (isCorrect1 : bool) (now1 : Z)
    (isCorrect2 : bool) (now2 : Z) (table : LearningTable) : LearningTable :=
  let first := selectLearning pid table in
  let second := selectLearning pid table in
  writeLearning second pid isCorrect2 now2
    (writeLearning first pid isCorrect1 now1 table).

(** The same two calls, the second one started when the first is done. *)
Definition in_sequence (pid : Z) (isCorrect1 : bool) (now1 : Z)
    (isCorrect2 : bool) (now2 : Z) (table : LearningTable) : LearningTable :=
  updatePatternLearning true pid isCorrect2 now2
    (updatePatternLearning true pid isCorrect1 now1 table).

(** One feedback event that reaches the table. *)
Record Feedback : Type := {
  f_available : bool;
  f_patternId : Z;
  f_isCorrect : bool;
  f_now : Z
}.

Definition feedback_run (events : list Feedback) (table : LearningTable)
  : LearningTable :=
  fold_left (fun t e =>
               updatePatternLearning e.(f_available) e.(f_patternId)
                                     e.(f_isCorrect) e.(f_now) t)
            events table.

(** *** The rows of [pair_patterns] *)

(** A row of the table [pairPatterns] of the schema.  [success_rate] is a
    [real] column; it is an exact rational here, and what is stated of it is
    its range, which rounding to the column keeps. *)
Record PairPatternRow : Type := {
  pp_id : Z;
  pp_pairId : Z;
  pp_patternId : Z;
  occurrenceCount : Z;
  successRate : Q;
  pp_lastUpdated : Z
}.

Record PairPatternTable : Type := {
  pp_rows : list PairPatternRow;
  pp_nextId : Z
}.

Definition emptyPairPatterns : PairPatternTable :=
  {| pp_rows := []; pp_nextId := 1 |}.

(** [DatabaseStorage.updateTradingPairStats] (lines 412-450), a call
    whose statements run with no statement of another call between them.
    The new occurrence count, the divisor of the new rate, is positive in
    every row this function writes; [available] is false when the [select]
    throws: the error is caught and logged, and nothing is written. *)
Definition updateTradingPairStats (available : bool) (pairId pid : Z)
    (isCorrect : bool) (now : Z) (table : PairPatternTable)
  : PairPatternTable :=
  if negb available then table else
  match List.filter (fun r => (r.(pp_pairId) =? pairId)
                              && (r.(pp_patternId) =? pid))
                    table.(pp_rows) with
  | existingRelationship :: _ =>
      let newOccurrenceCount := existingRelationship.(occurrenceCount) + 1 in
      let totalSuccesses :=
        if isCorrect
        then (existingRelationship.(successRate)
              * inject_Z existingRelationship.(occurrenceCount) + 1)%Q
        else (existingRelationship.(successRate)
              * inject_Z existingRelationship.(occurrenceCount))%Q in
      let newSuccessRate := (totalSuccesses / inject_Z newOccurrenceCount)%Q in
      {| pp_rows :=
           map (fun r =>
                  if r.(pp_id) =? existingRelationship.(pp_id)
                  then {| pp_id := r.(pp_id);
                          pp_pairId := r.(pp_pairId);
                          pp_patternId := r.(pp_patternId);
                          occurrenceCount := newOccurrenceCount;
                          successRate := newSuccessRate;
                          pp_lastUpdated := now |}
                  else r)
               table.(pp_rows);
         pp_nextId := table.(pp_nextId) |}
  | [] =>
      {| pp_rows :=
           table.(pp_rows) ++
           [ {| pp_id := table.(pp_nextId);
                pp_pairId := pairId;
                pp_patternId := pid;
                occurrenceCount := 1;
                successRate := if isCorrect then 1%Q else 0%Q;
                pp_lastUpdated := now |} ];
         pp_nextId := table.(pp_nextId) + 1 |}
  end.

(** One feedback event for a pair and a pattern. *)
Record PairFeedback : Type := {
  pf_available : bool;
  pf_pairId : Z;
  pf_patternId : Z;
  pf_isCorrect : bool;
  pf_now : Z
}.

Definition pair_feedback_run (events : list PairFeedback)
    (table : PairPatternTable) : PairPatternTable :=
  fold_left (fun t e =>
               updateTradingPairStats e.(pf_available) e.(pf_pairId)
                 e.(pf_patternId) e.(pf_isCorrect) e.(pf_now) t)
            events table.

(** *** The row of [ai_stats] *)

(** The latest row of the table [aiStats], the one [updateAiStats] reads
    and writes. *)
Record AiStats : Type := {
  totalAnalyses : Z;
  st_feedbackCount : Z;
  overallAccuracy : Q;
  patternsLearned : Z;
  st_lastUpdated : Z
}.

(** [DatabaseStorage.updateAiStats] (lines 452-499), a call whose
    statements run with no statement of another call between them.
    [patternQuery] is the answer of the count of the distinct patterns with
    feedback, [None] for an answer without a first row; the new feedback
    count, the divisor of the new accuracy, is positive where the division is
    made.  [overall_accuracy] is a [real] column; it is an exact rational
    here, and what is stated of it is its range, which rounding to the
    column keeps.  [available] is false when a statement throws: the error
    is caught and logged, and the row stays as it was. *)
Definition updateAiStats (available : bool)
    (newAnalysis newFeedback isCorrect : bool) (patternQuery : option Z)
    (now : Z) (currentStats : option AiStats) : option AiStats :=
  if negb available then currentStats else
  match currentStats with
  | None =>
      Some {| totalAnalyses := if newAnalysis then 1 else 0;
              st_feedbackCount := if newFeedback then 1 else 0;
              overallAccuracy :=
                if newFeedback && isCorrect then 1%Q else 0%Q;
              patternsLearned := 0;
              st_lastUpdated := now |}
  | Some currentStats =>
      let newTotalAnalyses :=
        if newAnalysis then currentStats.(totalAnalyses) + 1
        else currentStats.(totalAnalyses) in
      let newFeedbackCount :=
        if newFeedback then currentStats.(st_feedbackCount) + 1
        else currentStats.(st_feedbackCount) in
      let newAccuracy :=
        if newFeedback then
          let totalCorrect :=
            (currentStats.(overallAccuracy)
             * inject_Z currentStats.(st_feedbackCount)
             + (if isCorrect then 1 else 0))%Q in
          (totalCorrect / inject_Z newFeedbackCount)%Q
        else currentStats.(overallAccuracy) in
      Some {| totalAnalyses := newTotalAnalyses;
              st_feedbackCount := newFeedbackCount;
              overallAccuracy := newAccuracy;
              patternsLearned :=
                match patternQuery with
                | Some count => count   (* count || 0 *)
                | None => 0
                end;
              st_lastUpdated := now |}
  end.

(** One call of [updateAiStats]. *)
Record StatsEvent : Type := {
  se_available : bool;
  se_newAnalysis : bool;
  se_newFeedback : bool;
  se_isCorrect : bool;
  se_patternQuery : option Z;
  se_now : Z
}.

Definition stats_run (events : list StatsEvent) (stats : option AiStats)
  : option AiStats :=
  fold_left (fun s e =>
               updateAiStats e.(se_available) e.(se_newAnalysis)
                 e.(se_newFeedback) e.(se_isCorrect) e.(se_patternQuery)
                 e.(se_now) s)
            events stats.

(** *** MemStorage *)

(** [this.analyses], a [Map]: its entries in the order of insertion. *)
Definition Analyses := list (string * Openai.TAnalysisResult).

(** [Map.prototype.get] *)
Fixpoint map_get {V : Type} (key : string) (m : list (string * V)) : option V :=
  match m with
  | [] => None
  | (k, v) :: rest => if String.eqb k key then Some v else map_get key rest
  end.

(** [Map.prototype.set]: a known key keeps its place, a new one goes to the
    end. *)
Fixpoint map_set {V : Type} (key : string) (value : V) (m : list (string * V))
  : list (string * V) :=
  match m with
  | [] => [(key, value)]
  | (k, v) :: rest =>
      if String.eqb k key then (k, value) :: rest
      else (k, v) :: map_set key value rest
  end.

(** [{ ...analysis, feedback: isCorrect }] *)
Definition with_feedback (analysis : Openai.TAnalysisResult) (isCorrect : bool)
  : Openai.TAnalysisResult :=
  {| Openai.id := analysis.(Openai.id);
     Openai.imageUrl := analysis.(Openai.imageUrl);
     Openai.pattern := analysis.(Openai.pattern);
     Openai.prediction := analysis.(Openai.prediction);
     Openai.confidence := analysis.(Openai.confidence);
     Openai.winRate := analysis.(Openai.winRate);
     Openai.sampleSize := analysis.(Openai.sampleSize);
     Openai.explanation := analysis.(Openai.explanation);
     Openai.timestamp := analysis.(Openai.timestamp);
     Openai.feedback := Some isCorrect |}.

(** [{ id, ...analysis }] for an analysis that has no id of its own. *)
Definition with_id (id : string) (analysis : Openai.TAnalysisResult)
  : Openai.TAnalysisResult :=
  {| Openai.id := id;
     Openai.imageUrl := analysis.(Openai.imageUrl);
     Openai.pattern := analysis.(Openai.pattern);
     Openai.prediction := analysis.(Openai.prediction);
     Openai.confidence := analysis.(Openai.confidence);
     Openai.winRate := analysis.(Openai.winRate);
     Openai.sampleSize := analysis.(Openai.sampleSize);
     Openai.explanation := analysis.(Openai.explanation);
     Openai.timestamp := analysis.(Openai.timestamp);
     Openai.feedback := analysis.(Openai.feedback) |}.

(** [MemStorage.getAnalysisById] (lines 81-83) *)
Definition mem_getAnalysisById (id : string) (analyses : Analyses)
  : option Openai.TAnalysisResult :=
  map_get id analyses.

(** [MemStorage.saveAnalysis] (lines 85-94); [id] is what [generateId()]
    returned. *)
Definition mem_saveAnalysis (id : string) (analysis : Openai.TAnalysisResult)
    (analyses : Analyses) : Openai.TAnalysisResult * Analyses :=
  let newAnalysis := with_id id analysis in
  (newAnalysis, map_set id newAnalysis analyses).

(** [MemStorage.updateAnalysisFeedback] (lines 96-110) *)
Definition mem_updateAnalysisFeedback (id : string) (isCorrect : bool)
    (analyses : Analyses) : option Openai.TAnalysisResult * Analyses :=
  match map_get id analyses with
  | None => (None, analyses)
  | Some analysis =>
      let updatedAnalysis := with_feedback analysis isCorrect in
      (Some updatedAnalysis, map_set id updatedAnalysis analyses)
  end.

(** [Array.prototype.sort] with a comparator that is negative exactly when
    [before a b]: the sort is stable, so an element goes in front of the
    first one it is before, behind the ones it ties with. *)
Fixpoint sort_insert {A : Type} (before : A -> A -> bool) (x : A) (l : list A)
  : list A :=
  match l with
  | [] => [x]
  | y :: rest =>
      if before x y then x :: y :: rest
      else y :: sort_insert before x rest
  end.

Definition stable_sort {A : Type} (before : A -> A -> bool) (l : list A)
  : list A :=
  fold_left (fun sorted x => sort_insert before x sorted) l [].

(** The fields of a history item. *)
Definition history_item (analysis : Openai.TAnalysisResult)
  : Openai.TAnalysisHistoryItem :=
  {| Openai.h_id := analysis.(Openai.id);
     Openai.h_imageUrl := analysis.(Openai.imageUrl);
     Openai.h_pattern := analysis.(Openai.pattern);
     Openai.h_prediction := analysis.(Openai.prediction);
     Openai.h_confidence := analysis.(Openai.confidence);
     Openai.h_timestamp := analysis.(Openai.timestamp);
     Openai.h_feedback := analysis.(Openai.feedback) |}.

(** [MemStorage.getAnalysisHistory] (lines 61-79).  [getTime] is
    [new Date(timestamp).getTime()] for the timestamps of the store, which
    are dates: the newest analysis comes first. *)
Definition mem_getAnalysisHistory (getTime : string -> Z) (analyses : Analyses)
  : list Openai.TAnalysisHistoryItem :=
  map history_item
      (stable_sort (fun a b => getTime b.(Openai.timestamp)
                               <? getTime a.(Openai.timestamp))
                   (map snd analyses)).

(** *** DatabaseStorage: the feedback of an analysis *)

(** A row of [analyses]: the analysis and its two foreign keys, null when
    the pattern or the pair is not in its table. *)
Record AnalysisRow : Type := {
  a_analysis : Openai.TAnalysisResult;
  a_patternId : option Z;
  a_pairId : option Z
}.

Record Database : Type := {
  db_analyses : list (string * AnalysisRow);
  db_patternLearning : LearningTable;
  db_pairPatterns : PairPatternTable;
  db_aiStats : option AiStats
}.

(** Which statements of a request go through; one that does not, throws. *)
Record Health : Type := {
  selectAnalyses : bool;
  updateAnalyses : bool;
  learningQueries : bool;
  pairQueries : bool;
  statsQueries : bool
}.

(** A key as a condition: null and 0 are falsy. *)
Definition truthy_id (x : option Z) : option Z :=
  match x with
  | Some n => if n =? 0 then None else Some n
  | None => None
  end.

(** [DatabaseStorage.getAnalysisById] (lines 195-217): an error of the
    query is caught, logged and answered with null. *)
Definition db_getAnalysisById (health : Health) (id : string) (db : Database)
  : option Openai.TAnalysisResult :=
  if negb health.(selectAnalyses) then None
  else option_map a_analysis (map_get id db.(db_analyses)).

(** [DatabaseStorage.updateAnalysisFeedback] (lines 311-355).  An error of
    the [select] or of the [update] of [analyses] is caught, logged and
    answered with null; the three methods called afterwards catch their
    own.  [patternQuery] is the answer to the count of [updateAiStats]. *)
Definition db_updateAnalysisFeedback (health : Health)
    (patternQuery : option Z) (now : Z) (id : string) (isCorrect : bool)
    (db : Database) : option Openai.TAnalysisResult * Database :=
  if negb health.(selectAnalyses) then (None, db) else
  match map_get id db.(db_analyses) with
  | None => (None, db)
  | Some existingAnalysis =>
      if negb health.(updateAnalyses) then (None, db) else
      let updatedAnalysis :=
        {| a_analysis := with_feedback existingAnalysis.(a_analysis) isCorrect;
           a_patternId := existingAnalysis.(a_patternId);
           a_pairId := existingAnalysis.(a_pairId) |} in
      let learning :=
        match truthy_id existingAnalysis.(a_patternId) with
        | Some pid =>
            updatePatternLearning health.(learningQueries) pid isCorrect now
                                  db.(db_patternLearning)
        | None => db.(db_patternLearning)
        end in
      let pairs :=
        match truthy_id existingAnalysis.(a_pairId),
              truthy_id existingAnalysis.(a_patternId) with
        | Some pairId, Some pid =>
            updateTradingPairStats health.(pairQueries) pairId pid isCorrect
                                   now db.(db_pairPatterns)
        | _, _ => db.(db_pairPatterns)
        end in
      let stats :=
        updateAiStats health.(statsQueries) false true isCorrect patternQuery
                      now db.(db_aiStats) in
      (Some updatedAnalysis.(a_analysis),
       {| db_analyses := map_set id updatedAnalysis db.(db_analyses);
          db_patternLearning := learning;
          db_pairPatterns := pairs;
          db_aiStats := stats |})
  end.

End Storage.

(* ===================================================================== *)
(** ** server/lib/chart-analyzer.ts                                      *)
(* ===================================================================== *)

Module ChartAnalyzer.
Import JS.

(** How an awaited call ends: with a value, or with a thrown error, of
    which the source reads the message. *)
Inductive Outcome (A : Type) : Type :=
| Returned (value : A)
| Thrown (message : string).
Arguments Returned {A} value.
Arguments Thrown {A} message.

(** What both analysers return.  The prediction of the model of OpenAI is
    whatever string its JSON holds, and each of its three numbers is
    [Number(...)] of what the JSON holds, clamped: NaN for a text that is
    not a number. *)
Record Analysis : Type := {
  pattern : string;
  prediction : string;
  confidence : JSNum;
  winRate : JSNum;
  sampleSize : JSNum;
  explanation : string
}.

(** [String.prototype.toLowerCase], on the letters A to Z. *)
Definition lower_ascii (c : ascii) : ascii :=
  let n := nat_of_ascii c in
  if (65 <=? n)%nat && (n <=? 90)%nat then ascii_of_nat (n + 32) else c.

Fixpoint toLowerCase (s : string) : string :=
  match s with
  | EmptyString => EmptyString
  | String c rest => String (lower_ascii c) (toLowerCase rest)
  end.

(** [s.includes(sub)] *)
Definition includes (s sub : string) : bool :=
  match String.index 0 sub s with
  | Some _ => true
  | None => false
  end.

(** Lines 38-51: the prediction is made one of the two words, the three
    numbers are rounded and clamped. *)
Definition normalise (analysis : Analysis) : Analysis :=
  let prediction :=
    if String.eqb analysis.(prediction) "bullish"
       || String.eqb analysis.(prediction) "bearish"
    then analysis.(prediction)
    else if includes (toLowerCase analysis.(prediction)) "bull"
         then "bullish"%string else "bearish"%string in
  {| pattern := analysis.(pattern);
     prediction := prediction;
     confidence :=
       num_min (Fin 100) (num_max (Fin 1) (num_round analysis.(confidence)));
     winRate :=
       num_min (Fin 90) (num_max (Fin 50) (num_round analysis.(winRate)));
     sampleSize :=
       num_min (Fin 500) (num_max (Fin 50) (num_round analysis.(sampleSize)));
     explanation := analysis.(explanation) |}.

(** Lines 13-15: the image as a data URL. *)
Definition cleanImage (imageBase64 : string) : string :=
  if String.prefix "data:image/" imageBase64 then imageBase64
  else ("data:image/png;base64," ++ imageBase64)%string.

(** An analysis the simulated analyser may return: the blender's win rate
    and sample size are outside the ranges of the wrapper. *)
Definition simulated_sample : Analysis :=
  {| pattern := "Hammer Candlestick";
     prediction := "bearish";
     confidence := Fin (1525 # 20);
     winRate := Fin 13;
     sampleSize := Fin 620;
     explanation := "This chart shows a Hammer Candlestick" |}.

(** What [analyzeChartWithOpenAI] returns when the JSON of the model holds
    ["confidence": "high"]: the text is truthy, so the check of the required
    fields passes, [Number("high")] is NaN, and [Math.round], [Math.max] and
    [Math.min] keep it. *)
Definition openai_sample : Analysis :=
  {| pattern := "Double Top";
     prediction := "bearish";
     confidence := NaN;
     winRate := Fin 70;
     sampleSize := Fin 250;
     explanation := "A double top has formed at resistance" |}.

(** [Math.min(hi, Math.max(lo, Math.round(x)))], by cases on [x]. *)
Definition clamped (lo hi : Z) (x : JSNum) : JSNum :=
  match x with
  | Fin q => Fin (inject_Z (Z.min hi (Z.max lo (Math_round q))))
  | PosInf => Fin (inject_Z hi)
  | NegInf => Fin (inject_Z lo)
  | NaN => NaN
  end.

Section Wrapper.

(** The collaborators of the wrapper: the storage, the environment and
    the two analysers. *)
Variable getAnalysisHistory : Outcome (list Openai.TAnalysisHistoryItem).
Variable OPENAI_API_KEY : option string.
Variable analyzeChartWithOpenAI :
  string -> list Openai.TAnalysisHistoryItem -> Outcome Analysis.
Variable analyzeChartImage :
  string -> list Openai.TAnalysisHistoryItem -> Outcome Analysis.

(** The outer [catch] of lines 64-67. *)
Definition rethrow (message : string) : Outcome Analysis :=
  Thrown ("Failed to analyze chart: " ++ message)%string.

(** [analyzeChart] (lines 10-68). *)
Definition analyzeChart (imageBase64 : string) : Outcome Analysis :=
  let cleanedImageBase64 := cleanImage imageBase64 in
  match getAnalysisHistory with
  | Thrown message => rethrow message
  | Returned history =>
      let analysis :=
        match OPENAI_API_KEY with
        | Some (String _ _) =>
            match analyzeChartWithOpenAI cleanedImageBase64 history with
            | Returned a => Returned a
            | Thrown _ => analyzeChartImage cleanedImageBase64 history
            end
        | _ => analyzeChartImage cleanedImageBase64 history
        end in
      match analysis with
      | Thrown message => rethrow message
      | Returned a => Returned (normalise a)
      end
  end.

End Wrapper.

End ChartAnalyzer.

(* ===================================================================== *)
(** ** The statistics blender as the specification words it              *)
(* ===================================================================== *)

Module Spec.
Import JS Openai.

(** The counters of an absent entry. *)
Definition fresh (now : Date) : PatternData :=
  {| confidenceAdjustment := 0; feedbackCount := 0; successCount := 0;
     lastUpdated := now |}.

(** The entry a feedback call writes, from the entry it read. *)
Definition bumped (old : PatternData) (isCorrect : bool) (now : Date)
  : PatternData :=
  {| confidenceAdjustment :=
       Z.max (-10) (Z.min 10 (if isCorrect
                              then old.(confidenceAdjustment) + 1
                              else old.(confidenceAdjustment) - 1));
     feedbackCount := old.(feedbackCount) + 1;
     successCount := if isCorrect then old.(successCount) + 1
                     else old.(successCount);
     lastUpdated := now |}.

(** How many items of a list satisfy a test. *)
Fixpoint count {A : Type} (test : A -> bool) (l : list A) : Z :=
  match l with
  | [] => 0
  | x :: rest => (if test x then 1 else 0) + count test rest
  end.


Definition isCorrect (item : TAnalysisHistoryItem) : bool :=
  match item.(h_feedback) with Some true => true | _ => false end.

(** The blender of the specification, on the numbers of the source:
    doubles. *)
Import PrimFloat.
#[local] Set Warnings "-inexact-float".







End Spec.

(* ===================================================================== *)
(** ** The routes of /api/feedback and /api/ai/stats                     *)
(* ===================================================================== *)

Module Routes.
Import JS Openai.

(** A field of a request body, as far as the schema looks at it. *)
Inductive Json : Type :=
| JString (s : string)
| JBoolean (b : bool)
| JOther.

(** The body of a feedback request; a field the body lacks is [None]. *)
Record FeedbackBody : Type := {
  analysisId : option Json;
  isCorrect : option Json
}.

(** What the route answers: the analysis ([null] when the storage knows it
    no more) or a status with a message. *)
Inductive Response : Type :=
| Sent (analysis : option TAnalysisResult)
| Failed (status : Z) (message : string).

(** [feedbackSchema.parse]: [None] stands for the ZodError. *)
Definition parseFeedback (body : FeedbackBody) : option (string * bool) :=
  match body.(analysisId), body.(isCorrect) with
  | Some (JString id), Some (JBoolean c) => Some (id, c)
  | _, _ => None
  end.

Section Feedback.

(** The storage behind the route, with its state. *)
Variable Store : Type.
Variable getAnalysisById :
  string -> Store -> ChartAnalyzer.Outcome (option TAnalysisResult).
Variable updateAnalysisFeedback :
  string -> bool -> Store
  -> ChartAnalyzer.Outcome (option TAnalysisResult) * Store.

(** The handler of POST /api/feedback (lines 159-185 of server/db.ts):
    the response, the storage and the
    learning table after the request. *)
Definition postFeedback (body : FeedbackBody) (now : Date) (store : Store)
    (learnedPatterns : gmap string PatternData)
  : Response * Store * gmap string PatternData :=
  match parseFeedback body with
  | None => (Failed 400 "Invalid input format", store, learnedPatterns)
  | Some (id, c) =>
      match getAnalysisById id store with
      | ChartAnalyzer.Thrown _ =>
          (Failed 500 "Failed to submit feedback", store, learnedPatterns)
      | ChartAnalyzer.Returned None =>
          (Failed 404 "Analysis not found", store, learnedPatterns)
      | ChartAnalyzer.Returned (Some existingAnalysis) =>
          let learnedPatterns :=
            updateLearningModel existingAnalysis c now learnedPatterns in
          match updateAnalysisFeedback id c store with
          | (ChartAnalyzer.Thrown _, store) =>
              (Failed 500 "Failed to submit feedback", store, learnedPatterns)
          | (ChartAnalyzer.Returned updatedAnalysis, store) =>
              (Sent updatedAnalysis, store, learnedPatterns)
          end
      end
  end.

End Feedback.

(** The route over [MemStorage], none of whose methods throws. *)
Definition postFeedbackMem (body : FeedbackBody) (now : Date)
    (analyses : Storage.Analyses) (learnedPatterns : gmap string PatternData)
  : Response * Storage.Analyses * gmap string PatternData :=
  postFeedback Storage.Analyses
    (fun id analyses =>
       ChartAnalyzer.Returned (Storage.mem_getAnalysisById id analyses))
    (fun id c analyses =>
       let '(updated, analyses) :=
         Storage.mem_updateAnalysisFeedback id c analyses in
       (ChartAnalyzer.Returned updated, analyses))
    body now analyses learnedPatterns.

(** The route over [DatabaseStorage], whose methods catch the errors of
    their statements. *)
Definition postFeedbackDb (health : Storage.Health) (patternQuery : option Z)
    (body : FeedbackBody) (now : Date)
    (db : Storage.Database) (learnedPatterns : gmap string PatternData)
  : Response * Storage.Database * gmap string PatternData :=
  postFeedback Storage.Database
    (fun id db =>
       ChartAnalyzer.Returned (Storage.db_getAnalysisById health id db))
    (fun id c db =>
       let '(updated, db) :=
         Storage.db_updateAnalysisFeedback health patternQuery now id c db in
       (ChartAnalyzer.Returned updated, db))
    body now db learnedPatterns.

(** A well-formed feedback request. *)
Definition feedback_request (id : string) (c : bool) : FeedbackBody :=
  {| analysisId := Some (JString id); isCorrect := Some (JBoolean c) |}.

(** A run of requests, each at its clock reading. *)
Definition feedback_requests (requests : list (FeedbackBody * Date))
    (analyses : Storage.Analyses) (learnedPatterns : gmap string PatternData)
  : Storage.Analyses * gmap string PatternData :=
  fold_left (fun state request =>
               let '(_, analyses, learned) :=
                 postFeedbackMem request.1 request.2 state.1 state.2 in
               (analyses, learned))
            requests (analyses, learnedPatterns).

(** *** GET /api/ai/stats (lines 229-289 of server/db.ts) *)

(** An entry of [patternSuccess]. *)
Record Success : Type := {
  count : Z;
  correct : Z
}.

(** [correct / count * 100] *)
Definition rate (s : Success) : Q :=
  (inject_Z s.(correct) / inject_Z s.(count) * 100)%Q.

(** One step of the [forEach] over the items with feedback: the entry of
    the pattern is created when absent, then counted.  The keys of the
    object keep the order of their creation. *)
Fixpoint tally (pattern : string) (hit : bool) (table : list (string * Success))
  : list (string * Success) :=
  match table with
  | [] => [(pattern, {| count := 1; correct := if hit then 1 else 0 |})]
  | (k, s) :: rest =>
      if String.eqb k pattern
      then (k, {| count := s.(count) + 1;
                  correct := if hit then s.(correct) + 1 else s.(correct) |})
           :: rest
      else (k, s) :: tally pattern hit rest
  end.

Definition patternSuccess (feedbackItems : list TAnalysisHistoryItem)
  : list (string * Success) :=
  fold_left (fun table item =>
               tally item.(h_pattern)
                     match item.(h_feedback) with
                     | Some true => true
                     | _ => false
                     end table)
            feedbackItems [].

(** The keys of [patternCounts]: the patterns of the history, each once. *)
Fixpoint note (pattern : string) (keys : list string) : list string :=
  match keys with
  | [] => [pattern]
  | k :: rest => if String.eqb k pattern then k :: rest
                 else k :: note pattern rest
  end.

Definition patternKeys (history : list TAnalysisHistoryItem) : list string :=
  fold_left (fun keys item => note item.(h_pattern) keys) history [].

Record TopPattern : Type := {
  tp_pattern : string;
  tp_accuracy : Q;
  tp_samples : Z
}.

Record AiStatsReport : Type := {
  rp_totalAnalyses : Z;
  rp_feedbackCount : Z;
  rp_overallAccuracy : Q;
  rp_patternsLearned : Z;
  rp_topPatterns : list TopPattern;
  rp_learningStatus : string
}.

(** [Math.round(x * 10) / 10] *)
Definition round1 (x : Q) : Q := (inject_Z (Math_round (x * 10)) / 10)%Q.

(** The report of the handler, from the history of the storage; the sort
    puts [a] before [b] when [b.rate - a.rate] is negative. *)
Definition aiStats (history : list TAnalysisHistoryItem) : AiStatsReport :=
  let feedbackItems :=
    List.filter (fun item => match item.(h_feedback) with
                             | Some _ => true
                             | None => false
                             end) history in
  let correctPredictions :=
    length (List.filter (fun item => match item.(h_feedback) with
                                     | Some true => true
                                     | _ => false
                                     end) feedbackItems) in
  let accuracy :=
    if Z.of_nat (length feedbackItems) =? 0 then 0%Q
    else (inject_Z (Z.of_nat correctPredictions)
          / inject_Z (Z.of_nat (length feedbackItems)) * 100)%Q in
  let topPatterns :=
    map (fun entry => {| tp_pattern := fst entry;
                         tp_accuracy := round1 (rate (snd entry));
                         tp_samples := (snd entry).(count) |})
        (firstn 5
           (Storage.stable_sort
              (fun a b => negb (Qle_bool (rate (snd a)) (rate (snd b))))
              (List.filter (fun entry => 2 <=? (snd entry).(count))
                           (patternSuccess feedbackItems)))) in
  {| rp_totalAnalyses := Z.of_nat (length history);
     rp_feedbackCount := Z.of_nat (length feedbackItems);
     rp_overallAccuracy := round1 accuracy;
     rp_patternsLearned := Z.of_nat (length (patternKeys history));
     rp_topPatterns := topPatterns;
     rp_learningStatus :=
       if Z.of_nat (length feedbackItems) <? 5 then "initializing"
       else if Z.of_nat (length feedbackItems) <? 20 then "learning"
       else "optimized" |}.

End Routes.

(* ===================================================================== *)
(** ** Predicates and measures of the properties                         *)
(* ===================================================================== *)

Module Inv.
Import JS Openai.

(** What every entry keeps, whatever the calls: the counters are ordered,
    the adjustment is within its clamp, and the clamp has not acted while
    there are at most ten verdicts. *)
Definition settled (d : PatternData) : Prop :=
  0 <= d.(successCount) <= d.(feedbackCount)
  /\ -10 <= d.(confidenceAdjustment) <= 10
  /\ (d.(feedbackCount) <= 10 ->
      d.(confidenceAdjustment) = 2 * d.(successCount) - d.(feedbackCount)).

(** The calls of a run that are for the pattern [p], and those of them
    with the verdict "correct". *)
Definition for_pattern (p : string)
    (call : TAnalysisResult * bool * Date) : bool :=
  String.eqb call.1.1.(pattern) p.

Definition correct_for (p : string)
    (call : TAnalysisResult * bool * Date) : bool :=
  String.eqb call.1.1.(pattern) p && call.1.2.

(** The verdicts of one pattern, each with the clock reading of the
    feedback integrator and that of the database method: as calls of the
    integrator, and as events of the row, one call after the other. *)
Definition entry_calls (p : string) (verdicts : list (bool * Z * Z))
  : list (TAnalysisResult * bool * Date) :=
  map (fun v => (analysis_of p, v.1.1, v.1.2)) verdicts.

Definition row_events (pid : Z) (verdicts : list (bool * Z * Z))
  : list Storage.Feedback :=
  map (fun v => {| Storage.f_available := true; Storage.f_patternId := pid;
                   Storage.f_isCorrect := v.1.1; Storage.f_now := v.2 |})
      verdicts.

(** The events of [updateAiStats] that reach the table: the analyses and
    the verdicts. *)
Definition counts_analysis (e : Storage.StatsEvent) : bool :=
  e.(Storage.se_available) && e.(Storage.se_newAnalysis).

Definition counts_feedback (e : Storage.StatsEvent) : bool :=
  e.(Storage.se_available) && e.(Storage.se_newFeedback).

(** The verdicts of one pair and one pattern, as events of their row, one
    call after the other. *)
Definition relation_events (pairId pid : Z) (verdicts : list (bool * Z))
  : list Storage.PairFeedback :=
  map (fun v => {| Storage.pf_available := true; Storage.pf_pairId := pairId;
                   Storage.pf_patternId := pid;
                   Storage.pf_isCorrect := v.1; Storage.pf_now := v.2 |})
      verdicts.

(** What every row of [pair_patterns] keeps. *)
Definition relation_ok (r : Storage.PairPatternRow) : Prop :=
  1 <= r.(Storage.occurrenceCount)
  /\ (0 <= r.(Storage.successRate) <= 1)%Q.

(** A run of analyses, the oldest first: step 6 of [analyzeChartImage] for
    the trading information, the pattern and the clock reading of each. *)
Definition profile_run (calls : list (TradingInfo * string * Date))
    (tradingPairProfile : gmap string PairData) : gmap string PairData :=
  fold_left (fun table call => updatePairProfile call.1.1 call.1.2 call.2 table)
            calls tradingPairProfile.

(** The analyses of a run that are of the pair [q], those with the pattern
    [p], and those that carry a price. *)
Definition for_pair (q : string) (call : TradingInfo * string * Date) : bool :=
  String.eqb call.1.1.(pair) q.

Definition with_pattern (p : string) (call : TradingInfo * string * Date)
  : bool :=
  String.eqb call.1.2 p.

Definition with_price (call : TradingInfo * string * Date) : bool :=
  truthy call.1.1.(entry).

End Inv.

(* ===================================================================== *)
(** ** The feedback integrator                                           *)
(* ===================================================================== *)

Module LearningFacts.
Import JS Openai Spec.

Lemma updateLearningModel_insert analysis isCorrect now table :
  updateLearningModel analysis isCorrect now table =
  <[analysis.(pattern) :=
      bumped (default (fresh now) (table !! analysis.(pattern))) isCorrect now]>
    table.
Proof.
  unfold updateLearningModel, bumped.
  destruct (table !! pattern analysis) as [old|] eqn:Hold; simpl.
  - rewrite Hold. reflexivity.
  - rewrite lookup_insert_eq, insert_insert_eq. reflexivity.
Qed.

Lemma feedback_run_snoc calls analysis isCorrect now table :
  feedback_run (calls ++ [(analysis, isCorrect, now)]) table =
  updateLearningModel analysis isCorrect now (feedback_run calls table).
Proof. unfold feedback_run. now rewrite fold_left_app. Qed.

End LearningFacts.

(** C1.  For every pattern name and verdict the feedback integrator writes
    the entry of that pattern only: the entry read, or one with zeroed
    counters when there was none, with [feedbackCount] one larger,
    [successCount] one larger exactly when the verdict is "correct", and
    [confidenceAdjustment] moved by +1 or -1 and clamped to [-10, 10].  Hence
    after N correct verdicts for one pattern from the empty table its entry
    has [feedbackCount = N], [successCount = N] and
    [confidenceAdjustment = min N 10] (there is no entry when N is 0). *)
Theorem updateLearningModel_counts :
  (forall analysis isCorrect now table,
     let old := default (Spec.fresh now) (table !! analysis.(Openai.pattern)) in
     exists d,
       Openai.updateLearningModel analysis isCorrect now table
         = <[analysis.(Openai.pattern) := d]> table
       /\ d.(Openai.feedbackCount) = old.(Openai.feedbackCount) + 1
       /\ d.(Openai.successCount)
          = old.(Openai.successCount) + (if isCorrect then 1 else 0)
       /\ d.(Openai.confidenceAdjustment)
          = Z.max (-10) (Z.min 10 (old.(Openai.confidenceAdjustment)
                                   + (if isCorrect then 1 else -1)))
       /\ d.(Openai.lastUpdated) = now)
  /\
  (forall P (calls : list (Openai.TAnalysisResult * bool * Openai.Date)),
     Forall (fun '(a, isCorrect, _) =>
               a.(Openai.pattern) = P /\ isCorrect = true) calls ->
     let N := Z.of_nat (length calls) in
     match Openai.feedback_run calls ∅ !! P with
     | Some d =>
         0 < N /\ d.(Openai.feedbackCount) = N /\ d.(Openai.successCount) = N
         /\ d.(Openai.confidenceAdjustment) = Z.min N 10
     | None => N = 0
     end).
Proof.
  split.
  - intros analysis isCorrect now table old.
    rewrite LearningFacts.updateLearningModel_insert. fold old.
    eexists; split; [reflexivity|].
    unfold Spec.bumped; simpl. destruct isCorrect; repeat split; try lia.
  - intros P calls. induction calls as [|[[a c] now] calls IH] using rev_ind.
    + intros _. reflexivity.
    + intros Hall. apply Forall_app in Hall as [Hall Hlast].
      specialize (IH Hall). cbv zeta in IH |- *.
      apply Forall_cons in Hlast as [[HP Hc] _]. subst c.
      rewrite LearningFacts.feedback_run_snoc,
        LearningFacts.updateLearningModel_insert, HP, lookup_insert_eq.
      rewrite length_app, Nat2Z.inj_add. simpl length.
      destruct (Openai.feedback_run calls ∅ !! P) as [d|]; simpl.
      * destruct IH as (Hpos & Hf & Hs & Ha). rewrite Hf, Hs, Ha.
        repeat split; lia.
      * rewrite IH. repeat split; lia.
Qed.

Lemma updateLearningModel_counts_witness :
  let calls :=
    [ (Openai.analysis_of "Hammer Candlestick", true, 1);
      (Openai.analysis_of "Hammer Candlestick", true, 2);
      (Openai.analysis_of "Hammer Candlestick", true, 3) ] in
  Forall (fun '(a, isCorrect, _) =>
            a.(Openai.pattern) = "Hammer Candlestick"%string /\ isCorrect = true)
         calls
  /\ match Openai.feedback_run calls ∅ !! "Hammer Candlestick"%string with
     | Some d =>
         0 < 3 /\ d.(Openai.feedbackCount) = 3 /\ d.(Openai.successCount) = 3
         /\ d.(Openai.confidenceAdjustment) = Z.min 3 10
     | None => 3 = 0
     end.
Proof.
  intros calls.
  assert (Hcalls : Forall (fun '(a, isCorrect, _) =>
            a.(Openai.pattern) = "Hammer Candlestick"%string /\ isCorrect = true)
         calls) by (repeat constructor).
  split; [exact Hcalls|].
  exact (proj2 updateLearningModel_counts "Hammer Candlestick"%string calls Hcalls).
Defined.

(* ===================================================================== *)
(** ** The invariant of the learning counters                            *)
(* ===================================================================== *)

Module InvariantFacts.
Import Openai.

Lemma updateLearningModel_keeps (inv := fun (_ : string) (d : PatternData) =>
                                   0 <= d.(successCount) <= d.(feedbackCount))
    analysis isCorrect now table :
  map_Forall inv table ->
  map_Forall inv (updateLearningModel analysis isCorrect now table).
Proof.
  intros Hinv. rewrite LearningFacts.updateLearningModel_insert.
  apply map_Forall_insert_2; [|exact Hinv].
  unfold inv, Spec.bumped; simpl.
  destruct (table !! pattern analysis) as [old|] eqn:Hold; simpl.
  - pose proof (Hinv _ _ Hold) as Hold'. unfold inv in Hold'.
    destruct isCorrect; lia.
  - destruct isCorrect; lia.
Qed.

Lemma feedback_run_keeps calls : forall table,
  map_Forall (fun _ d => 0 <= d.(successCount) <= d.(feedbackCount)) table ->
  map_Forall (fun _ d => 0 <= d.(successCount) <= d.(feedbackCount))
             (feedback_run calls table).
Proof.
  induction calls as [|[[a c] now] calls IH]; intros table Hinv; [exact Hinv|].
  simpl. apply IH, updateLearningModel_keeps, Hinv.
Qed.

Lemma updatePatternLearning_keeps available pid isCorrect now table :
  Forall (fun r => 0 <= r.(Storage.successCount) <= r.(Storage.feedbackCount))
         table.(Storage.rows) ->
  Forall (fun r => 0 <= r.(Storage.successCount) <= r.(Storage.feedbackCount))
         (Storage.updatePatternLearning available pid isCorrect now table).(Storage.rows).
Proof.
  intros Hinv. unfold Storage.updatePatternLearning.
  destruct available; simpl; [|exact Hinv].
  destruct (List.filter _ _) as [|existing rest] eqn:Hsel; simpl.
  - apply Forall_app; split; [exact Hinv|].
    constructor; [|constructor]. simpl. destruct isCorrect; lia.
  - assert (Hex : 0 <= existing.(Storage.successCount)
                       <= existing.(Storage.feedbackCount)).
    { assert (Hin : In existing (existing :: rest)) by (left; reflexivity).
      rewrite <- Hsel in Hin. apply List.filter_In in Hin as [Hin _].
      rewrite List.Forall_forall in Hinv. exact (Hinv _ Hin). }
    unfold Storage.updateWhereId. apply List.Forall_map.
    eapply List.Forall_impl; [|exact Hinv].
    intros r Hr. simpl. destruct (_ =? _); [|exact Hr].
    simpl. destruct isCorrect; lia.
Qed.

Lemma storage_run_keeps events : forall table,
  Forall (fun r => 0 <= r.(Storage.successCount) <= r.(Storage.feedbackCount))
         table.(Storage.rows) ->
  Forall (fun r => 0 <= r.(Storage.successCount) <= r.(Storage.feedbackCount))
         (Storage.feedback_run events table).(Storage.rows).
Proof.
  induction events as [|e events IH]; intros table Hinv; [exact Hinv|].
  simpl. apply IH, updatePatternLearning_keeps, Hinv.
Qed.

End InvariantFacts.

(** C5.  From the empty table, after every sequence of feedback operations
    every entry has [0 <= successCount <= feedbackCount]: in the table of
    [updateLearningModel], whose entries start with both counters at 0, and
    in the rows that [DatabaseStorage.updatePatternLearning] writes.  As the
    sequence is arbitrary, the invariant holds after each of its
    operations. *)
Theorem successCount_le_feedbackCount :
  (forall calls,
     map_Forall (fun _ d => 0 <= d.(Openai.successCount) <= d.(Openai.feedbackCount))
                (Openai.feedback_run calls ∅))
  /\
  (forall events,
     Forall (fun r => 0 <= r.(Storage.successCount) <= r.(Storage.feedbackCount))
            (Storage.feedback_run events Storage.emptyTable).(Storage.rows)).
Proof.
  split.
  - intros calls. apply InvariantFacts.feedback_run_keeps, map_Forall_empty.
  - intros events. apply InvariantFacts.storage_run_keeps. constructor.
Qed.

(* ===================================================================== *)
(** ** Pattern names are not validated                                   *)
(* ===================================================================== *)

(** The empty pattern name is accepted: from the empty table the call
    creates the entry of the name [""]. *)
Lemma empty_name_is_accepted :
  Openai.updateLearningModel (Openai.analysis_of "") true 0 ∅ !! ""%string
    = Some {| Openai.confidenceAdjustment := 1; Openai.feedbackCount := 1;
              Openai.successCount := 1; Openai.lastUpdated := 0 |}
  /\ Openai.updateLearningModel (Openai.analysis_of "") true 0 ∅ <> ∅.
Proof.
  rewrite LearningFacts.updateLearningModel_insert. simpl. split.
  - rewrite lookup_insert_eq. reflexivity.
  - apply insert_non_empty.
Qed.

(** C8, as the code has it.  The feedback integrator validates nothing: for
    every pattern name, the empty one included, the call creates or updates
    the entry of that name, whose [feedbackCount] is one more than before
    (one, when there was no entry), and leaves every other entry alone. *)
Theorem updateLearningModel_accepts_every_name :
  forall analysis isCorrect now table,
    (exists d,
       Openai.updateLearningModel analysis isCorrect now table
         !! analysis.(Openai.pattern) = Some d
       /\ d.(Openai.feedbackCount)
          = default 0 (Openai.feedbackCount <$> table !! analysis.(Openai.pattern)) + 1)
    /\ delete analysis.(Openai.pattern)
         (Openai.updateLearningModel analysis isCorrect now table)
       = delete analysis.(Openai.pattern) table.
Proof.
  intros analysis isCorrect now table.
  rewrite LearningFacts.updateLearningModel_insert. split.
  - eexists. rewrite lookup_insert_eq. split; [reflexivity|].
    destruct (table !! Openai.pattern analysis); reflexivity.
  - apply delete_insert_eq.
Qed.

(* ===================================================================== *)
(** ** The statistics blender                                            *)
(* ===================================================================== *)

Module BlenderFacts.
Import JS Openai Spec.




Lemma count_and_le {A} (f g : A -> bool) l :
  count (fun x => f x && g x) l <= count f l.
Proof.
  induction l as [|x l IH]; simpl; [lia|].
  destruct (f x), (g x); simpl; lia.
Qed.

Import PrimFloat.
#[local] Set Warnings "-inexact-float".

(** [Math.round] and [Math.floor] on doubles, at the values where they are
    easy to get wrong: a half goes up, also below zero; the largest double
    below a half goes down; a result of zero keeps the sign. *)
Lemma Math_on_doubles :
  Double.Math_round 2.5 = 3%float
  /\ Double.Math_round (-2.5) = (-2)%float
  /\ Double.Math_round 0.49999999999999994 = 0%float
  /\ Double.Math_round (-0.25) = (-0)%float
  /\ Double.Math_round 31.499999999999996 = 31%float
  /\ Double.Math_floor (-0.5) = (-1)%float
  /\ Double.Math_floor 19.999999999999996 = 19%float
  /\ (70 * (1 - Double.Math_min (11 / 20) 0.6))%float
     = 31.499999999999996%float
  /\ Double.Math_min 0.8 nan = nan.
Proof. repeat split; vm_compute; reflexivity. Qed.

(** The blender leaves the range [50, 90] in the double arithmetic as it
    does in the exact one: 13 after ten "incorrect" verdicts and the draw 0,
    97 after ten "correct" verdicts and the draw 0.96. *)
Lemma blender_leaves_range_in_doubles :
  Double.generatePatternStatistics
    (feedback_run (feedback_times 10 "Hammer Candlestick" false) ∅)
    "Hammer Candlestick" [] (Double.of_Z 0) (Double.of_Z 0)
  = {| Double.winRate := Double.of_Z 13; Double.sampleSize := Double.of_Z 160 |}
  /\
  Double.generatePatternStatistics
    (feedback_run (feedback_times 10 "Hammer Candlestick" true) ∅)
    "Hammer Candlestick" []
    (PrimFloat.div (Double.of_Z 96) (Double.of_Z 100)) (Double.of_Z 0)
  = {| Double.winRate := Double.of_Z 97; Double.sampleSize := Double.of_Z 160 |}.
Proof. split; vm_compute; reflexivity. Qed.

End BlenderFacts.


(* ===================================================================== *)
(** ** The pattern selector                                              *)
(* ===================================================================== *)

Module SelectorFacts.
Import JS Openai.

Lemma Math_min_cases (a b : Q) :
  ((a <= b)%Q /\ Math_min a b = a) \/ ((b < a)%Q /\ Math_min a b = b).
Proof.
  unfold Math_min. destruct (Qle_bool a b) eqn:H.
  - left. split; [now apply Qle_bool_iff|reflexivity].
  - right. split; [|reflexivity].
    apply Qnot_le_lt. intros Hle. apply Qle_bool_iff in Hle. congruence.
Qed.

Lemma Math_max_cases (a b : Q) :
  ((a <= b)%Q /\ Math_max a b = b) \/ ((b < a)%Q /\ Math_max a b = a).
Proof.
  unfold Math_max. destruct (Qle_bool a b) eqn:H.
  - left. split; [now apply Qle_bool_iff|reflexivity].
  - right. split; [|reflexivity].
    apply Qnot_le_lt. intros Hle. apply Qle_bool_iff in Hle. congruence.
Qed.

(** The clamp [Math.max(lo, Math.min(hi, x))]. *)
Lemma clamp_bounds (lo hi x : Q) :
  (lo <= hi)%Q -> (lo <= Math_max lo (Math_min hi x) <= hi)%Q.
Proof.
  intros Hlohi.
  destruct (Math_min_cases hi x) as [[H1 E1]|[H1 E1]]; rewrite E1;
    match goal with
    | |- context [Math_max ?a ?b] =>
        destruct (Math_max_cases a b) as [[H2 E2]|[H2 E2]]; rewrite E2
    end; lra.
Qed.

(** The floor of a draw scaled by [n] is an index below [n]. *)
Lemma floor_of_draw r (n : Z) :
  0 < n -> unit_interval r -> 0 <= Math_floor (r * inject_Z n) < n.
Proof.
  intros Hn [H0 H1]. unfold Math_floor.
  assert (Hnq : (0 < inject_Z n)%Q) by (change 0%Q with (inject_Z 0); now rewrite <- Zlt_Qlt).
  split.
  - change 0 with (Qfloor 0). apply Qfloor_resp_le. nra.
  - pose proof (Qfloor_le (r * inject_Z n)) as Hle.
    assert (Hlt : (inject_Z (Qfloor (r * inject_Z n)) < inject_Z n)%Q) by nra.
    now rewrite <- Zlt_Qlt in Hlt.
Qed.

(** The loop returns the pattern of an item, or the one selected before
    it. *)
Lemma weightedSelect_In rand items : forall cumulativeWeight selected,
  In (weightedSelect rand cumulativeWeight items selected)
     (selected :: map fst items).
Proof.
  induction items as [|item items IH]; intros c selected; simpl.
  - left; reflexivity.
  - destruct (JS.le rand _).
    + right; left; reflexivity.
    + destruct (IH (JS.add c (snd item)) selected) as [H|H].
      * left; exact H.
      * right; right; exact H.
Qed.

Lemma normalize_names weights : map fst (normalize weights) = map fst weights.
Proof. unfold normalize. rewrite map_map. reflexivity. Qed.

Lemma patternWeights_names learned profiles info history patterns :
  map fst (patternWeights learned profiles info history patterns) = patterns.
Proof.
  unfold patternWeights. rewrite map_map. simpl. apply map_id.
Qed.

(** A draw of the unit interval selects a category, none of them empty, of
    names of the taxonomy. *)
Lemma selectCategory_in_taxonomy rand :
  unit_interval rand ->
  exists first rest,
    selectCategory rand = Some (first :: rest)
    /\ incl (first :: rest) taxonomy.
Proof.
  intros Hrand. unfold selectCategory.
  pose proof (floor_of_draw rand (Z.of_nat (length categories))
                ltac:(simpl; lia) Hrand) as Hidx.
  set (index := Math_floor _) in *.
  destruct (Z.ltb_spec index 0) as [Hneg|_]; [lia|].
  change (Z.of_nat (length categories)) with 5 in Hidx.
  assert (Hcases : index = 0 \/ index = 1 \/ index = 2 \/ index = 3 \/ index = 4)
    by lia.
  destruct Hcases as [->|[->|[->|[->| ->]]]];
    (eexists; eexists; split; [reflexivity|]);
    intros name Hin; unfold taxonomy; simpl in *; tauto.
Qed.

(** With nothing learned, the draws of [draws_of_taxonomy] select the names
    of the taxonomy, one after the other. *)
Lemma draws_of_taxonomy_select :
  map (fun random =>
         option_map r_pattern
           (enhancedPatternRecognition ∅ ∅ (info_at "BTC/USD" None) [] random))
      draws_of_taxonomy
  = map Some taxonomy.
Proof. vm_compute. reflexivity. Qed.

Lemma draws_of_taxonomy_range :
  Forall (fun random => unit_interval random.(d_category)) draws_of_taxonomy.
Proof.
  unfold draws_of_taxonomy; simpl.
  repeat (constructor; [vm_compute; split; [discriminate|reflexivity]|]).
  constructor.
Qed.

Lemma taxonomy_NoDup : List.NoDup taxonomy.
Proof.
  apply NoDup_ListNoDup, (bool_decide_unpack _). vm_compute. exact I.
Qed.

(** Every name of the taxonomy is the answer to some call. *)
Lemma every_name_is_selected name :
  In name taxonomy ->
  exists random r,
    unit_interval random.(d_category)
    /\ enhancedPatternRecognition ∅ ∅ (info_at "BTC/USD" None) [] random
       = Some r
    /\ r.(r_pattern) = name.
Proof.
  intros Hin. apply In_nth_error in Hin as [n Hn].
  assert (Hsel : nth_error (map Some taxonomy) n = Some (Some name))
    by (rewrite nth_error_map, Hn; reflexivity).
  rewrite <- draws_of_taxonomy_select, nth_error_map in Hsel.
  destruct (nth_error draws_of_taxonomy n) as [random|] eqn:Hrandom;
    [|discriminate].
  simpl in Hsel. exists random.
  destruct (enhancedPatternRecognition _ _ _ _ random) as [r|];
    [|discriminate].
  exists r. repeat split.
  - pose proof draws_of_taxonomy_range as Hrange.
    rewrite List.Forall_forall in Hrange.
    apply (Hrange random), (nth_error_In _ _ Hrandom).
  - pose proof draws_of_taxonomy_range as Hrange.
    rewrite List.Forall_forall in Hrange.
    apply (Hrange random), (nth_error_In _ _ Hrandom).
  - simpl in Hsel. congruence.
Qed.

End SelectorFacts.

(** The names the selector returns are not within any 25 names: each of the
    27 names of [MARKET_PATTERNS], all different, is returned for some
    draw. *)
Lemma selector_names_exceed_25 :
  ~ exists T : list string,
      length T = 25%nat
      /\ forall learned profiles info history random r,
           Openai.unit_interval random.(Openai.d_category) ->
           Openai.enhancedPatternRecognition learned profiles info history random
             = Some r ->
           In r.(Openai.r_pattern) T.
Proof.
  intros (T & Hlen & HT).
  assert (Hincl : incl Openai.taxonomy T).
  { intros name Hin.
    destruct (SelectorFacts.every_name_is_selected name Hin)
      as (random & r & Hrange & Hr & <-).
    exact (HT _ _ _ _ _ _ Hrange Hr). }
  pose proof (List.NoDup_incl_length SelectorFacts.taxonomy_NoDup Hincl) as Hle.
  rewrite Hlen in Hle. vm_compute in Hle. lia.
Qed.

(** C2, as the code has it.  For every state of the two tables, every
    trading information, every history and every draw of the unit interval,
    the pattern selector returns a result, whose pattern is one of the names
    of [MARKET_PATTERNS], which are 27 (5, 5, 5, 5 and 7 in the five
    categories), and whose confidence is within [50, 95]. *)
Theorem enhancedPatternRecognition_in_taxonomy :
  forall learned profiles info history random,
    Openai.unit_interval random.(Openai.d_category) ->
    exists r,
      Openai.enhancedPatternRecognition learned profiles info history random
        = Some r
      /\ In r.(Openai.r_pattern) Openai.taxonomy
      /\ length Openai.taxonomy = 27%nat
      /\ map (fun c => length (snd c)) Openai.MARKET_PATTERNS
         = [5; 5; 5; 5; 7]%nat
      /\ (50 <= r.(Openai.r_confidence) <= 95)%Q.
Proof.
  intros learned profiles info history random Hrange.
  unfold Openai.enhancedPatternRecognition.
  destruct (SelectorFacts.selectCategory_in_taxonomy _ Hrange)
    as (first & rest & -> & Hincl).
  eexists; split; [reflexivity|].
  cbn [Openai.r_pattern Openai.r_confidence].
  split; [|split; [reflexivity|split; [reflexivity|]]].
  - apply Hincl.
    match goal with
    | |- In (Openai.weightedSelect ?r ?c ?items ?d) _ =>
        pose proof (SelectorFacts.weightedSelect_In r items c d) as Hsel
    end.
    rewrite SelectorFacts.normalize_names, SelectorFacts.patternWeights_names
      in Hsel.
    destruct Hsel as [<-|Hsel]; [left; reflexivity|exact Hsel].
  - apply SelectorFacts.clamp_bounds. lra.
Qed.

Lemma enhancedPatternRecognition_in_taxonomy_witness :
  Openai.unit_interval (Openai.draws_for 4 6 7).(Openai.d_category)
  /\ exists r,
      Openai.enhancedPatternRecognition ∅ ∅ (Openai.info_at "BTC/USD" None) []
        (Openai.draws_for 4 6 7) = Some r
      /\ In r.(Openai.r_pattern) Openai.taxonomy
      /\ length Openai.taxonomy = 27%nat
      /\ map (fun c => length (snd c)) Openai.MARKET_PATTERNS
         = [5; 5; 5; 5; 7]%nat
      /\ (50 <= r.(Openai.r_confidence) <= 95)%Q.
Proof.
  assert (Hrange : Openai.unit_interval (Openai.draws_for 4 6 7).(Openai.d_category))
    by (vm_compute; split; [discriminate|reflexivity]).
  split; [exact Hrange|].
  exact (enhancedPatternRecognition_in_taxonomy
           ∅ ∅ (Openai.info_at "BTC/USD" None) [] (Openai.draws_for 4 6 7) Hrange).
Defined.

(* ===================================================================== *)
(** ** Where the code leaves the ranges of the specification             *)
(* ===================================================================== *)

Module RangeFacts.
Import JS Openai.

(** The sample size never falls below its base of 150. *)
Lemma sampleSize_at_least_150 learned p history randWinRate randSampleSize :
  (0 <= randSampleSize)%Q ->
  150 <= (generatePatternStatistics learned p history
                                    randWinRate randSampleSize).(s_sampleSize).
Proof.
  intros Hr. unfold generatePatternStatistics, Math_floor.
  assert (Hfloor : 0 <= Qfloor (randSampleSize * 350)).
  { change 0 with (Qfloor 0). apply Qfloor_resp_le. lra. }
  set (base := Qfloor (randSampleSize * 350)) in *. clearbody base.
  destruct (learned !! p) as [d|];
    [destruct (Z.ltb_spec 0 (feedbackCount d))|];
    match goal with
    | |- context [0 <? Z.of_nat ?n] => destruct (Z.ltb_spec 0 (Z.of_nat n))
    end; cbn [s_sampleSize]; lia.
Qed.

End RangeFacts.

(** C3, at a failing input.  After ten "incorrect" verdicts for "Hammer
    Candlestick" the statistics blender, with an empty history and the
    smallest draws, returns the win rate 13, below 50; after ten "correct"
    verdicts and the draw 0.96 it returns 97, above 90.  The sample size is
    160 in both. *)
Theorem generatePatternStatistics_leaves_range :
  Openai.generatePatternStatistics
    (Openai.feedback_run (Openai.feedback_times 10 "Hammer Candlestick" false) ∅)
    "Hammer Candlestick" [] 0 0
  = {| Openai.s_winRate := 13; Openai.s_sampleSize := 160 |}
  /\
  Openai.generatePatternStatistics
    (Openai.feedback_run (Openai.feedback_times 10 "Hammer Candlestick" true) ∅)
    "Hammer Candlestick" [] (24 # 25) 0
  = {| Openai.s_winRate := 97; Openai.s_sampleSize := 160 |}.
Proof. split; vm_compute; reflexivity. Qed.

(** C4, at the input of the scenario.  The first analysis of "BTC/USD" at
    61000 creates the profile with [lastSeenPrice = 61000], [volatility =
    0.02] and no pattern counted; the second, at 62200, sets [volatility] to
    [0.02*0.7 + (62200/61000 - 1)*0.3 = 607/30500] and counts the pattern
    once. *)
Theorem updatePairProfile_scenario :
  let first :=
    Openai.updatePairProfile (Openai.info_at "BTC/USD" (Some 61000%Q))
                             "Bollinger Band Squeeze" 1 ∅ in
  let second :=
    Openai.updatePairProfile (Openai.info_at "BTC/USD" (Some 62200%Q))
                             "Bollinger Band Squeeze" 2 first in
  (exists d, first !! "BTC/USD"%string = Some d
             /\ d.(Openai.lastSeenPrice) = 61000%Q
             /\ d.(Openai.volatility) = (2 # 100)%Q
             /\ d.(Openai.patterns) = ∅)
  /\
  (exists d, second !! "BTC/USD"%string = Some d
             /\ d.(Openai.lastSeenPrice) = 62200%Q
             /\ (d.(Openai.volatility)
                 == (2 # 100) * (7 # 10) + (62200 / 61000 - 1) * (3 # 10))%Q
             /\ (d.(Openai.volatility) == 607 # 30500)%Q
             /\ d.(Openai.patterns) = {[ "Bollinger Band Squeeze"%string := 1 ]}).
Proof.
  split.
  - eexists. split; [vm_compute; reflexivity|].
    repeat split; vm_compute; reflexivity.
  - eexists. split; [vm_compute; reflexivity|].
    repeat split; vm_compute; reflexivity.
Qed.

(** C9, at a failing input.  After one "incorrect" verdict for each of the
    five continuation patterns every weight of the category is 0, so is
    their total, and the normalisation divides each weight by zero: all
    five normalised weights are NaN, no comparison of the loop succeeds and
    the first pattern of the category is returned. *)
Theorem normalisation_divides_by_zero :
  let learned :=
    Openai.feedback_run (Openai.one_incorrect_each Openai.continuation) ∅ in
  let info := Openai.info_at "BTC/USD" None in
  let weights := Openai.patternWeights learned ∅ info [] Openai.continuation in
  Openai.selectCategory 0 = Some Openai.continuation
  /\ (Openai.totalWeight weights == 0)%Q
  /\ map snd (Openai.normalize weights)
     = [JS.NaN; JS.NaN; JS.NaN; JS.NaN; JS.NaN]
  /\ option_map Openai.r_pattern
       (Openai.enhancedPatternRecognition learned ∅ info []
          {| Openai.d_category := 0; Openai.d_select := 1 # 2;
             Openai.d_confidence := 0; Openai.d_direction := 0 |})
     = Some "Higher Highs & Higher Lows (Uptrend)"%string.
Proof. repeat split; vm_compute; reflexivity. Qed.

(* ===================================================================== *)
(** ** The wrapper of the two analysers                                  *)
(* ===================================================================== *)

Module WrapperFacts.
Import JS ChartAnalyzer.

Lemma Qle_bool_inject_Z a b : Qle_bool (inject_Z a) (inject_Z b) = (a <=? b).
Proof. unfold Qle_bool; simpl. now rewrite !Z.mul_1_r. Qed.

(** [Math.min(hi, Math.max(lo, z))] on integers. *)
Lemma clamp_integer lo hi z :
  Math_min (inject_Z hi) (Math_max (inject_Z lo) (inject_Z z))
  = inject_Z (Z.min hi (Z.max lo z)).
Proof.
  unfold Math_min, Math_max.
  rewrite (Qle_bool_inject_Z lo z).
  destruct (Z.leb_spec lo z) as [H1|H1]; rewrite Qle_bool_inject_Z.
  - destruct (Z.leb_spec hi z) as [H2|H2]; f_equal; lia.
  - destruct (Z.leb_spec hi lo) as [H2|H2]; f_equal; lia.
Qed.

Lemma clamp_clamped lo hi x :
  lo <= hi ->
  num_min (Fin (inject_Z hi)) (num_max (Fin (inject_Z lo)) (num_round x))
  = clamped lo hi x.
Proof.
  intros Hlohi.
  destruct x as [q| | |]; cbn [num_round num_max num_min clamped];
    try reflexivity.
  - now rewrite clamp_integer.
  - unfold Math_min. rewrite Qle_bool_inject_Z.
    destruct (Z.leb_spec hi lo); f_equal; f_equal; lia.
Qed.

(** The three numbers of a normalised analysis. *)
Lemma normalise_clamped a :
  (normalise a).(confidence) = clamped 1 100 a.(confidence)
  /\ (normalise a).(winRate) = clamped 50 90 a.(winRate)
  /\ (normalise a).(sampleSize) = clamped 50 500 a.(sampleSize).
Proof.
  unfold normalise; cbn [confidence winRate sampleSize].
  repeat split.
  - apply (clamp_clamped 1 100); lia.
  - apply (clamp_clamped 50 90); lia.
  - apply (clamp_clamped 50 500); lia.
Qed.

(** A clamped number is NaN, or an integer within the bounds. *)
Lemma clamped_range lo hi x :
  lo <= hi ->
  match x with
  | NaN => clamped lo hi x = NaN
  | _ => exists c, clamped lo hi x = Fin (inject_Z c) /\ lo <= c <= hi
  end.
Proof.
  intros Hlohi.
  destruct x as [q| | |]; cbn [clamped]; try reflexivity;
    eexists; (split; [reflexivity|lia]).
Qed.

End WrapperFacts.

(** C7.  With an API key configured, when the call of the model of OpenAI
    throws, whatever its error, and the simulated analyser returns an
    analysis, [analyzeChart] returns: its result is that analysis, after the
    normalisation the wrapper applies to the result of either analyser.  The
    error of the external model does not reach the caller. *)
Theorem analyzeChart_falls_back :
  forall history key analyzeChartWithOpenAI analyzeChartImage image message a,
    key <> ""%string ->
    analyzeChartWithOpenAI (ChartAnalyzer.cleanImage image) history
      = ChartAnalyzer.Thrown message ->
    analyzeChartImage (ChartAnalyzer.cleanImage image) history
      = ChartAnalyzer.Returned a ->
    ChartAnalyzer.analyzeChart (ChartAnalyzer.Returned history) (Some key)
                               analyzeChartWithOpenAI analyzeChartImage image
    = ChartAnalyzer.Returned (ChartAnalyzer.normalise a)
    /\ (ChartAnalyzer.normalise a).(ChartAnalyzer.pattern)
       = a.(ChartAnalyzer.pattern)
    /\ (ChartAnalyzer.normalise a).(ChartAnalyzer.explanation)
       = a.(ChartAnalyzer.explanation).
Proof.
  intros history key openai simulated image message a Hkey Hopenai Hsim.
  unfold ChartAnalyzer.analyzeChart.
  destruct key as [|c key]; [congruence|].
  rewrite Hopenai, Hsim. repeat split.
Qed.

Lemma analyzeChart_falls_back_witness :
  let openai := fun (_ : string) (_ : list Openai.TAnalysisHistoryItem) =>
                  @ChartAnalyzer.Thrown ChartAnalyzer.Analysis
                    "Failed to analyze chart with OpenAI: timeout" in
  let simulated := fun (_ : string) (_ : list Openai.TAnalysisHistoryItem) =>
                     ChartAnalyzer.Returned ChartAnalyzer.simulated_sample in
  ChartAnalyzer.analyzeChart (ChartAnalyzer.Returned []) (Some "sk-test"%string)
                             openai simulated "iVBORw0KGgo"
  = ChartAnalyzer.Returned (ChartAnalyzer.normalise ChartAnalyzer.simulated_sample)
  /\ (ChartAnalyzer.normalise ChartAnalyzer.simulated_sample).(ChartAnalyzer.pattern)
     = ChartAnalyzer.simulated_sample.(ChartAnalyzer.pattern)
  /\ (ChartAnalyzer.normalise ChartAnalyzer.simulated_sample).(ChartAnalyzer.explanation)
     = ChartAnalyzer.simulated_sample.(ChartAnalyzer.explanation).
Proof.
  intros openai simulated.
  apply (analyzeChart_falls_back [] "sk-test"%string openai simulated
           "iVBORw0KGgo"%string
           "Failed to analyze chart with OpenAI: timeout"%string
           ChartAnalyzer.simulated_sample).
  - discriminate.
  - reflexivity.
  - reflexivity.
Defined.

(** C10, at a failing input.  With an API key configured and the JSON of
    the external model holding a confidence that is a text, not a number,
    [analyzeChartWithOpenAI] returns NaN as the confidence and [analyzeChart]
    returns that analysis with the confidence still NaN: not an integer
    within [1, 100].  For every analysis of either analyser the wrapper maps
    each of the three numbers [x] to NaN when [x] is NaN and to the integer
    [min(hi, max(lo, round(x)))] otherwise, so the ranges [1, 100], [50, 90]
    and [50, 500] hold exactly for the numbers that are not NaN; the win
    rate 13 of the statistics blender is clamped to 50. *)
Theorem analyzeChart_keeps_NaN :
  (let openai := fun (_ : string) (_ : list Openai.TAnalysisHistoryItem) =>
                   ChartAnalyzer.Returned ChartAnalyzer.openai_sample in
   let simulated := fun (_ : string) (_ : list Openai.TAnalysisHistoryItem) =>
                      ChartAnalyzer.Returned ChartAnalyzer.simulated_sample in
   ChartAnalyzer.analyzeChart (ChartAnalyzer.Returned [])
                              (Some "sk-test"%string)
                              openai simulated "iVBORw0KGgo"
   = ChartAnalyzer.Returned
       {| ChartAnalyzer.pattern := "Double Top";
          ChartAnalyzer.prediction := "bearish";
          ChartAnalyzer.confidence := JS.NaN;
          ChartAnalyzer.winRate := JS.Fin 70;
          ChartAnalyzer.sampleSize := JS.Fin 250;
          ChartAnalyzer.explanation :=
            "A double top has formed at resistance" |}
   /\ ChartAnalyzer.analyzeChart (ChartAnalyzer.Returned []) None
                                 openai simulated "iVBORw0KGgo"
      = ChartAnalyzer.Returned
          {| ChartAnalyzer.pattern := "Hammer Candlestick";
             ChartAnalyzer.prediction := "bearish";
             ChartAnalyzer.confidence := JS.Fin 76;
             ChartAnalyzer.winRate := JS.Fin 50;
             ChartAnalyzer.sampleSize := JS.Fin 500;
             ChartAnalyzer.explanation :=
               "This chart shows a Hammer Candlestick" |})
  /\ (forall a,
         (ChartAnalyzer.normalise a).(ChartAnalyzer.confidence)
         = ChartAnalyzer.clamped 1 100 a.(ChartAnalyzer.confidence)
         /\ (ChartAnalyzer.normalise a).(ChartAnalyzer.winRate)
            = ChartAnalyzer.clamped 50 90 a.(ChartAnalyzer.winRate)
         /\ (ChartAnalyzer.normalise a).(ChartAnalyzer.sampleSize)
            = ChartAnalyzer.clamped 50 500 a.(ChartAnalyzer.sampleSize))
  /\ (forall x,
         match x with
         | JS.NaN =>
             ChartAnalyzer.clamped 1 100 x = JS.NaN
             /\ ChartAnalyzer.clamped 50 90 x = JS.NaN
             /\ ChartAnalyzer.clamped 50 500 x = JS.NaN
         | _ =>
             (exists c, ChartAnalyzer.clamped 1 100 x = JS.Fin (inject_Z c)
                        /\ 1 <= c <= 100)
             /\ (exists w, ChartAnalyzer.clamped 50 90 x = JS.Fin (inject_Z w)
                           /\ 50 <= w <= 90)
             /\ (exists n, ChartAnalyzer.clamped 50 500 x = JS.Fin (inject_Z n)
                           /\ 50 <= n <= 500)
         end).
Proof.
  split; [split; vm_compute; reflexivity|].
  split; [exact WrapperFacts.normalise_clamped|].
  intros x.
  pose proof (WrapperFacts.clamped_range 1 100 x ltac:(lia)) as Hc.
  pose proof (WrapperFacts.clamped_range 50 90 x ltac:(lia)) as Hw.
  pose proof (WrapperFacts.clamped_range 50 500 x ltac:(lia)) as Hn.
  destruct x; repeat split; assumption.
Qed.


(* ===================================================================== *)
(** ** More on the feedback integrator                                   *)
(* ===================================================================== *)

Module CountFacts.
Import JS Openai Spec Inv.

Lemma count_app {A} (test : A -> bool) l1 l2 :
  count test (l1 ++ l2) = count test l1 + count test l2.
Proof.
  induction l1 as [|x l1 IH]; simpl; [reflexivity|]. rewrite IH. lia.
Qed.

Lemma count_bounds {A} (test : A -> bool) l :
  0 <= count test l <= Z.of_nat (length l).
Proof.
  induction l as [|x l IH]; simpl length; simpl count;
    [|destruct (test x)]; lia.
Qed.

Lemma count_correct_le p calls :
  0 <= count (correct_for p) calls <= count (for_pattern p) calls.
Proof.
  induction calls as [|[[a c] now] calls IH]; simpl; [lia|].
  unfold correct_for at 1 3, for_pattern at 1; simpl.
  destruct (String.eqb (pattern a) p), c; simpl; lia.
Qed.

Lemma updateLearningModel_settled analysis isCorrect now table :
  map_Forall (fun _ d => settled d) table ->
  map_Forall (fun _ d => settled d)
             (updateLearningModel analysis isCorrect now table).
Proof.
  intros Hinv. rewrite LearningFacts.updateLearningModel_insert.
  apply map_Forall_insert_2; [|exact Hinv].
  unfold settled, bumped.
  destruct (table !! pattern analysis) as [old|] eqn:Hold; simpl.
  - destruct (Hinv _ _ Hold) as (Hs & Ha & He).
    destruct isCorrect; repeat split; try lia.
  - destruct isCorrect; repeat split; lia.
Qed.

Lemma feedback_run_settled calls : forall table,
  map_Forall (fun _ d => settled d) table ->
  map_Forall (fun _ d => settled d) (feedback_run calls table).
Proof.
  induction calls as [|[[a c] now] calls IH]; intros table Hinv; [exact Hinv|].
  simpl. apply IH, updateLearningModel_settled, Hinv.
Qed.

End CountFacts.

(** X1.  After any run of feedback calls from the empty table, the entry of
    a pattern counts its calls: [feedbackCount] is the number of calls for
    the pattern and [successCount] the number of them with the verdict
    "correct"; there is no entry exactly when there was no call for it. *)
Theorem feedback_run_counts_calls :
  forall calls p,
    match Openai.feedback_run calls ∅ !! p with
    | Some d =>
        0 < Spec.count (Inv.for_pattern p) calls
        /\ d.(Openai.feedbackCount) = Spec.count (Inv.for_pattern p) calls
        /\ d.(Openai.successCount) = Spec.count (Inv.correct_for p) calls
    | None => Spec.count (Inv.for_pattern p) calls = 0
    end.
Proof.
  intros calls p. induction calls as [|[[a c] now] calls IH] using rev_ind.
  - reflexivity.
  - rewrite LearningFacts.feedback_run_snoc,
      LearningFacts.updateLearningModel_insert, !CountFacts.count_app.
    cbn [Spec.count].
    change (Inv.for_pattern p (a, c, now))
      with (String.eqb (Openai.pattern a) p).
    change (Inv.correct_for p (a, c, now))
      with (String.eqb (Openai.pattern a) p && c).
    pose proof (CountFacts.count_bounds (Inv.for_pattern p) calls) as Hb.
    pose proof (CountFacts.count_correct_le p calls) as Hc.
    destruct (String.eqb_spec (Openai.pattern a) p) as [->|Hne].
    + rewrite lookup_insert_eq.
      destruct (Openai.feedback_run calls ∅ !! p) as [d|]; simpl.
      * destruct IH as (Hpos & Hf & Hs). rewrite Hf, Hs.
        destruct c; simpl; repeat split; lia.
      * destruct c; simpl; repeat split; lia.
    + rewrite lookup_insert_ne by exact Hne. simpl.
      destruct (Openai.feedback_run calls ∅ !! p) as [d|]; simpl;
        rewrite ?Z.add_0_r; exact IH.
Qed.

(** X2.  After any run of feedback calls from the empty table, the
    confidence adjustment of every entry is within [-10, 10]. *)
Theorem confidenceAdjustment_within_clamp :
  forall calls,
    map_Forall (fun _ d => -10 <= d.(Openai.confidenceAdjustment) <= 10)
               (Openai.feedback_run calls ∅).
Proof.
  intros calls p d Hd.
  pose proof (CountFacts.feedback_run_settled calls ∅ (map_Forall_empty _)) as H.
  destruct (H p d Hd) as (_ & Hca & _). exact Hca.
Qed.

(** X3.  While a pattern has received at most ten verdicts the clamp has
    not acted: its confidence adjustment is the number of "correct"
    verdicts minus the number of "incorrect" ones. *)
Theorem confidenceAdjustment_is_balance :
  forall calls p d,
    Openai.feedback_run calls ∅ !! p = Some d ->
    d.(Openai.feedbackCount) <= 10 ->
    d.(Openai.confidenceAdjustment)
    = d.(Openai.successCount)
      - (d.(Openai.feedbackCount) - d.(Openai.successCount)).
Proof.
  intros calls p d Hd Hfc.
  pose proof (CountFacts.feedback_run_settled calls ∅ (map_Forall_empty _)) as H.
  destruct (H p d Hd) as (_ & _ & Hbal). rewrite (Hbal Hfc). lia.
Qed.

Lemma confidenceAdjustment_is_balance_witness :
  let calls :=
    Openai.feedback_times 5 "Hammer Candlestick" true
    ++ Openai.feedback_times 1 "Hammer Candlestick" false in
  let d := {| Openai.confidenceAdjustment := 4; Openai.feedbackCount := 6;
              Openai.successCount := 5; Openai.lastUpdated := 1 |} in
  Openai.feedback_run calls ∅ !! "Hammer Candlestick"%string = Some d
  /\ d.(Openai.feedbackCount) <= 10
  /\ d.(Openai.confidenceAdjustment)
     = d.(Openai.successCount)
       - (d.(Openai.feedbackCount) - d.(Openai.successCount)).
Proof.
  intros calls d.
  assert (Hd : Openai.feedback_run calls ∅ !! "Hammer Candlestick"%string = Some d)
    by (vm_compute; reflexivity).
  assert (Hfc : d.(Openai.feedbackCount) <= 10) by (simpl; lia).
  split; [exact Hd|]. split; [exact Hfc|].
  exact (confidenceAdjustment_is_balance calls "Hammer Candlestick"%string d Hd Hfc).
Defined.

(** X4.  After N "incorrect" verdicts for one pattern from the empty table
    its entry has [feedbackCount = N], [successCount = 0] and
    [confidenceAdjustment = max (-N) (-10)]. *)
Theorem incorrect_run_counts :
  forall p (calls : list (Openai.TAnalysisResult * bool * Openai.Date)),
    Forall (fun '(a, isCorrect, _) =>
              a.(Openai.pattern) = p /\ isCorrect = false) calls ->
    let N := Z.of_nat (length calls) in
    match Openai.feedback_run calls ∅ !! p with
    | Some d =>
        0 < N /\ d.(Openai.feedbackCount) = N /\ d.(Openai.successCount) = 0
        /\ d.(Openai.confidenceAdjustment) = Z.max (- N) (-10)
    | None => N = 0
    end.
Proof.
  intros p calls. induction calls as [|[[a c] now] calls IH] using rev_ind.
  - intros _. reflexivity.
  - intros Hall. apply Forall_app in Hall as [Hall Hlast].
    specialize (IH Hall). cbv zeta in IH |- *.
    apply Forall_cons in Hlast as [[HP Hc] _]. subst c.
    rewrite LearningFacts.feedback_run_snoc,
      LearningFacts.updateLearningModel_insert, HP, lookup_insert_eq.
    rewrite length_app, Nat2Z.inj_add. simpl length.
    destruct (Openai.feedback_run calls ∅ !! p) as [d|]; simpl.
    + destruct IH as (Hpos & Hf & Hs & Ha). rewrite Hf, Hs, Ha.
      repeat split; lia.
    + rewrite IH. repeat split; lia.
Qed.

Lemma incorrect_run_counts_witness :
  let calls := Openai.feedback_times 12 "Doji Formation" false in
  Forall (fun '(a, isCorrect, _) =>
            a.(Openai.pattern) = "Doji Formation"%string /\ isCorrect = false)
         calls
  /\ match Openai.feedback_run calls ∅ !! "Doji Formation"%string with
     | Some d =>
         0 < 12 /\ d.(Openai.feedbackCount) = 12 /\ d.(Openai.successCount) = 0
         /\ d.(Openai.confidenceAdjustment) = Z.max (- 12) (-10)
     | None => 12 = 0
     end.
Proof.
  intros calls.
  assert (Hcalls : Forall (fun '(a, isCorrect, _) =>
            a.(Openai.pattern) = "Doji Formation"%string /\ isCorrect = false)
         calls) by (repeat constructor).
  split; [exact Hcalls|].
  exact (incorrect_run_counts "Doji Formation"%string calls Hcalls).
Defined.

(** X5.  Feedback for two different patterns is independent: the two calls
    give the same table in either order. *)
Theorem updateLearningModel_commutes :
  forall a1 c1 t1 a2 c2 t2 table,
    a1.(Openai.pattern) <> a2.(Openai.pattern) ->
    Openai.updateLearningModel a1 c1 t1
      (Openai.updateLearningModel a2 c2 t2 table)
    = Openai.updateLearningModel a2 c2 t2
        (Openai.updateLearningModel a1 c1 t1 table).
Proof.
  intros a1 c1 t1 a2 c2 t2 table Hne.
  rewrite !LearningFacts.updateLearningModel_insert.
  rewrite lookup_insert_ne by congruence.
  rewrite (lookup_insert_ne _ (Openai.pattern a1)) by congruence.
  apply insert_insert_ne. congruence.
Qed.

Lemma updateLearningModel_commutes_witness :
  let a1 := Openai.analysis_of "RSI Divergence" in
  let a2 := Openai.analysis_of "MACD Divergence" in
  a1.(Openai.pattern) <> a2.(Openai.pattern)
  /\ Openai.updateLearningModel a1 true 1
       (Openai.updateLearningModel a2 false 2 ∅)
     = Openai.updateLearningModel a2 false 2
         (Openai.updateLearningModel a1 true 1 ∅).
Proof.
  intros a1 a2.
  assert (Hne : a1.(Openai.pattern) <> a2.(Openai.pattern)) by discriminate.
  split; [exact Hne|].
  exact (updateLearningModel_commutes a1 true 1 a2 false 2 ∅ Hne).
Defined.

(* ===================================================================== *)
(** ** More on the tables of the storage                                 *)
(* ===================================================================== *)

Module StorageFacts.
Import Storage Inv.

Lemma storage_run_snoc events e table :
  Storage.feedback_run (events ++ [e]) table
  = updatePatternLearning e.(f_available) e.(f_patternId) e.(f_isCorrect)
                          e.(f_now) (Storage.feedback_run events table).
Proof. unfold Storage.feedback_run. now rewrite fold_left_app. Qed.

(** A call alone is its [select], then its write. *)
Lemma updatePatternLearning_select_write pid isCorrect now table :
  updatePatternLearning true pid isCorrect now table
  = writeLearning (selectLearning pid table) pid isCorrect now table.
Proof.
  unfold updatePatternLearning, selectLearning, writeLearning. simpl.
  destruct (List.filter _ _); reflexivity.
Qed.

(** A second update from the same selected row overwrites the first. *)
Lemma writeLearning_overwrites e pid c1 n1 c2 n2 table :
  writeLearning (Some e) pid c2 n2 (writeLearning (Some e) pid c1 n1 table)
  = writeLearning (Some e) pid c2 n2 table.
Proof.
  unfold writeLearning, updateWhereId. simpl. f_equal.
  rewrite map_map. apply map_ext. intros r. simpl.
  destruct (Z.eqb_spec (row_id r) (row_id e)) as [E|E]; simpl.
  - rewrite E, Z.eqb_refl. reflexivity.
  - destruct (Z.eqb_spec (row_id r) (row_id e)); [contradiction|reflexivity].
Qed.

Lemma filter_app_nil {A} (test : A -> bool) l l' :
  List.filter test l = [] ->
  List.filter test (l ++ l') = List.filter test l'.
Proof. intros H. now rewrite List.filter_app, H. Qed.

(** An update by key leaves the rows of the other patterns out of the
    selection of a pattern. *)
Lemma filter_updateWhereId_nil pid id set rs :
  (forall r, (set r).(patternId) = r.(patternId)) ->
  List.filter (fun r => r.(patternId) =? pid) rs = [] ->
  List.filter (fun r => r.(patternId) =? pid) (updateWhereId id set rs) = [].
Proof.
  intros Hset. unfold updateWhereId.
  induction rs as [|r rs IH]; simpl; [reflexivity|].
  destruct (Z.eqb_spec (patternId r) pid) as [E|E]; [discriminate|].
  intros H. destruct (row_id r =? id); simpl.
  - rewrite Hset. destruct (Z.eqb_spec (patternId r) pid); [contradiction|].
    exact (IH H).
  - destruct (Z.eqb_spec (patternId r) pid); [contradiction|]. exact (IH H).
Qed.

End StorageFacts.

(** X6.  [pattern_learning] has no unique index on the pattern, and
    [updatePatternLearning] selects and then writes in no transaction.  Two
    calls for one pattern that overlap lose feedback: where the pattern has
    no row each of them inserts one, with one verdict each, and the same two
    calls one after the other leave one row with the two verdicts; where
    the pattern has a row the two updates start from the same row read, and
    the table is as if the first call had not been made. *)
Theorem overlapping_calls_lose_feedback :
  forall pid c1 n1 c2 n2 table,
    let same := fun r => r.(Storage.patternId) =? pid in
    match Storage.selectLearning pid table with
    | None =>
        List.filter same
          (Storage.overlapped pid c1 n1 c2 n2 table).(Storage.rows)
        = [ {| Storage.row_id := table.(Storage.nextId);
               Storage.patternId := pid;
               Storage.feedbackCount := 1;
               Storage.successCount := if c1 then 1 else 0;
               Storage.confidenceAdjustment := if c1 then 1 else -1;
               Storage.lastUpdated := n1 |};
            {| Storage.row_id := table.(Storage.nextId) + 1;
               Storage.patternId := pid;
               Storage.feedbackCount := 1;
               Storage.successCount := if c2 then 1 else 0;
               Storage.confidenceAdjustment := if c2 then 1 else -1;
               Storage.lastUpdated := n2 |} ]
        /\ exists r,
             List.filter same
               (Storage.in_sequence pid c1 n1 c2 n2 table).(Storage.rows)
             = [r]
             /\ r.(Storage.feedbackCount) = 2
             /\ r.(Storage.successCount)
                = (if c1 then 1 else 0) + (if c2 then 1 else 0)
    | Some existing =>
        Storage.overlapped pid c1 n1 c2 n2 table
        = Storage.updatePatternLearning true pid c2 n2 table
        /\ (Storage.updatePatternLearning true pid c2 n2 table).(Storage.rows)
           = Storage.updateWhereId existing.(Storage.row_id)
               (fun r =>
                  {| Storage.row_id := r.(Storage.row_id);
                     Storage.patternId := r.(Storage.patternId);
                     Storage.feedbackCount :=
                       existing.(Storage.feedbackCount) + 1;
                     Storage.successCount :=
                       if c2 then existing.(Storage.successCount) + 1
                       else existing.(Storage.successCount);
                     Storage.confidenceAdjustment :=
                       if c2
                       then Z.min (existing.(Storage.confidenceAdjustment) + 1) 10
                       else Z.max (existing.(Storage.confidenceAdjustment) - 1)
                                  (-10);
                     Storage.lastUpdated := n2 |})
               table.(Storage.rows)
    end.
Proof.
  intros pid c1 n1 c2 n2 table same.
  unfold Storage.overlapped, Storage.in_sequence.
  rewrite !StorageFacts.updatePatternLearning_select_write.
  destruct (Storage.selectLearning pid table) as [existing|] eqn:Hsel.
  - split; [apply StorageFacts.writeLearning_overwrites|reflexivity].
  - assert (Hnone : List.filter same table.(Storage.rows) = []).
    { unfold Storage.selectLearning in Hsel. fold same in Hsel.
      destruct (List.filter same _); [reflexivity|discriminate]. }
    split.
    + cbn [Storage.writeLearning Storage.rows Storage.nextId].
      rewrite <- app_assoc.
      rewrite (StorageFacts.filter_app_nil same _ _ Hnone).
      unfold same. simpl. rewrite !Z.eqb_refl. reflexivity.
    + assert (Hfirst :
        Storage.selectLearning pid
          (Storage.writeLearning None pid c1 n1 table)
        = Some {| Storage.row_id := table.(Storage.nextId);
                  Storage.patternId := pid;
                  Storage.feedbackCount := 1;
                  Storage.successCount := if c1 then 1 else 0;
                  Storage.confidenceAdjustment := if c1 then 1 else -1;
                  Storage.lastUpdated := n1 |}).
      { unfold Storage.selectLearning.
        cbn [Storage.writeLearning Storage.rows].
        fold same. rewrite (StorageFacts.filter_app_nil same _ _ Hnone).
        unfold same. simpl. rewrite Z.eqb_refl. reflexivity. }
      rewrite Hfirst.
      cbn [Storage.writeLearning Storage.rows Storage.nextId
           Storage.row_id Storage.feedbackCount Storage.successCount
           Storage.confidenceAdjustment].
      unfold Storage.updateWhereId. rewrite map_app, List.filter_app.
      fold (Storage.updateWhereId table.(Storage.nextId)
              (fun r =>
                 {| Storage.row_id := r.(Storage.row_id);
                    Storage.patternId := r.(Storage.patternId);
                    Storage.feedbackCount := 1 + 1;
                    Storage.successCount :=
                      if c2 then (if c1 then 1 else 0) + 1
                      else if c1 then 1 else 0;
                    Storage.confidenceAdjustment :=
                      if c2 then Z.min ((if c1 then 1 else -1) + 1) 10
                      else Z.max ((if c1 then 1 else -1) - 1) (-10);
                    Storage.lastUpdated := n2 |})
              table.(Storage.rows)).
      unfold same at 1.
      rewrite StorageFacts.filter_updateWhereId_nil;
        [|intros r; reflexivity|exact Hnone].
      unfold same. simpl. rewrite !Z.eqb_refl. simpl.
      eexists. split; [reflexivity|]. simpl.
      destruct c1, c2; split; reflexivity.
Qed.

(** X7.  The row of [pattern_learning] and the entry of [learnedPatterns]
    agree on the counts: after the same verdicts for one pattern, from empty
    tables, the calls of the database method made one after the other (none
    started before the one before it is done), the database holds one row
    for the pattern, whose feedback count, success count and confidence
    adjustment are those of the entry in memory: the two ways of clamping
    the adjustment give the same number.  Without a verdict neither
    exists.  The two dates are readings of the clock at different
    times. *)
Theorem pattern_learning_row_agrees_with_entry :
  forall pid p verdicts,
    match Openai.feedback_run (Inv.entry_calls p verdicts) ∅ !! p,
          (Storage.feedback_run (Inv.row_events pid verdicts)
                                Storage.emptyTable).(Storage.rows) with
    | None, [] => verdicts = []
    | Some d, [r] =>
        r.(Storage.patternId) = pid
        /\ r.(Storage.feedbackCount) = d.(Openai.feedbackCount)
        /\ r.(Storage.successCount) = d.(Openai.successCount)
        /\ r.(Storage.confidenceAdjustment) = d.(Openai.confidenceAdjustment)
    | _, _ => False
    end.
Proof.
  intros pid p verdicts.
  induction verdicts as [|[[c t] t'] verdicts IH] using rev_ind; [reflexivity|].
  unfold Inv.entry_calls, Inv.row_events in *. rewrite !map_app. simpl map.
  rewrite LearningFacts.feedback_run_snoc, StorageFacts.storage_run_snoc.
  rewrite LearningFacts.updateLearningModel_insert. simpl Openai.pattern.
  rewrite lookup_insert_eq. simpl.
  pose proof (CountFacts.feedback_run_settled
                (map (fun v : bool * Z * Z =>
                        (Openai.analysis_of p, v.1.1, v.1.2)) verdicts) ∅
                (map_Forall_empty _) p) as Hsettled.
  destruct (Openai.feedback_run _ ∅ !! p) as [d|];
    destruct (Storage.feedback_run _ Storage.emptyTable) as [rows nextId];
    simpl in IH; destruct rows as [|r [|r' rows]]; try contradiction.
  - destruct IH as (Hpid & Hf & Hs & Ha).
    destruct (Hsettled d eq_refl) as (_ & Hca & _).
    unfold Storage.updatePatternLearning. simpl.
    rewrite Hpid, Z.eqb_refl. simpl. rewrite Z.eqb_refl. simpl.
    rewrite Hf, Hs, Ha. destruct c; repeat split; try lia.
  - unfold Storage.updatePatternLearning. simpl.
    destruct c; repeat split; reflexivity.
Qed.

Module PairStatsFacts.
Import Storage Inv.

Lemma inject_Z_succ z : (inject_Z (z + 1) == inject_Z z + 1)%Q.
Proof. rewrite inject_Z_plus. reflexivity. Qed.

Lemma inject_Z_pos z : 1 <= z -> (1 <= inject_Z z)%Q.
Proof. intros H. change 1%Q with (inject_Z 1). now rewrite <- Zle_Qle. Qed.

(** The running mean stays a fraction. *)
Lemma mean_step (rate : Q) (occ : Z) (b : Q) :
  1 <= occ -> (0 <= rate <= 1)%Q -> (0 <= b <= 1)%Q ->
  (0 <= (rate * inject_Z occ + b) / inject_Z (occ + 1) <= 1)%Q.
Proof.
  intros Hocc Hrate Hb.
  pose proof (inject_Z_pos occ Hocc) as Hq.
  assert (Hden : (0 < inject_Z (occ + 1))%Q).
  { rewrite inject_Z_succ. lra. }
  split.
  - apply Qle_shift_div_l; [exact Hden|]. nra.
  - apply Qle_shift_div_r; [exact Hden|]. rewrite inject_Z_succ. nra.
Qed.

Lemma mean_step_same (rate : Q) (occ : Z) :
  1 <= occ -> (0 <= rate <= 1)%Q ->
  (0 <= (rate * inject_Z occ) / inject_Z (occ + 1) <= 1)%Q.
Proof.
  intros Hocc Hrate.
  pose proof (inject_Z_pos occ Hocc) as Hq.
  assert (Hden : (0 < inject_Z (occ + 1))%Q).
  { rewrite inject_Z_succ. lra. }
  split.
  - apply Qle_shift_div_l; [exact Hden|]. nra.
  - apply Qle_shift_div_r; [exact Hden|]. rewrite inject_Z_succ. nra.
Qed.

Lemma updateTradingPairStats_ok available pairId pid isCorrect now table :
  Forall relation_ok table.(pp_rows) ->
  Forall relation_ok
    (updateTradingPairStats available pairId pid isCorrect now table).(pp_rows).
Proof.
  intros Hinv. unfold updateTradingPairStats.
  destruct available; simpl; [|exact Hinv].
  destruct (List.filter _ _) as [|existing rest] eqn:Hsel; simpl.
  - apply Forall_app; split; [exact Hinv|].
    constructor; [|constructor]. unfold relation_ok; simpl.
    destruct isCorrect; split; try lia; lra.
  - assert (Hex : relation_ok existing).
    { assert (Hin : In existing (existing :: rest)) by (left; reflexivity).
      rewrite <- Hsel in Hin. apply List.filter_In in Hin as [Hin _].
      rewrite List.Forall_forall in Hinv. exact (Hinv _ Hin). }
    destruct Hex as [Hocc Hrate].
    apply List.Forall_map. eapply List.Forall_impl; [|exact Hinv].
    intros r Hr. destruct (_ =? _); [|exact Hr].
    unfold relation_ok; simpl. split; [lia|].
    destruct isCorrect.
    + apply mean_step; [exact Hocc|exact Hrate|lra].
    + apply mean_step_same; [exact Hocc|exact Hrate].
Qed.

Lemma pair_feedback_run_snoc events e table :
  pair_feedback_run (events ++ [e]) table
  = updateTradingPairStats e.(pf_available) e.(pf_pairId) e.(pf_patternId)
      e.(pf_isCorrect) e.(pf_now) (pair_feedback_run events table).
Proof. unfold pair_feedback_run. now rewrite fold_left_app. Qed.

Lemma pair_feedback_run_ok events :
  Forall relation_ok (pair_feedback_run events emptyPairPatterns).(pp_rows).
Proof.
  induction events as [|e events IH] using rev_ind; [constructor|].
  rewrite pair_feedback_run_snoc. apply updateTradingPairStats_ok, IH.
Qed.

End PairStatsFacts.

(** X8.  After any run of feedback events from the empty table every row
    of [pair_patterns] has an occurrence count of at least 1 and a success
    rate within [0, 1]: the divisor of the rate is never zero. *)
Theorem pair_patterns_rate_is_a_fraction :
  forall events,
    Forall (fun r => 1 <= r.(Storage.occurrenceCount)
                     /\ (0 <= r.(Storage.successRate) <= 1)%Q)
           (Storage.pair_feedback_run events Storage.emptyPairPatterns).(Storage.pp_rows).
Proof.
  intros events.
  exact (PairStatsFacts.pair_feedback_run_ok events).
Qed.

(** X9.  After N verdicts for one pair and one pattern, from the empty
    table, the calls made one after the other (none started before the one
    before it is done), [pair_patterns] holds one row for them, whose
    occurrence count is N: the first call inserts the row with the count 1,
    each later one finds it and adds 1. *)
Theorem pair_patterns_counts_the_verdicts :
  forall pairId pid verdicts,
    match (Storage.pair_feedback_run (Inv.relation_events pairId pid verdicts)
             Storage.emptyPairPatterns).(Storage.pp_rows) with
    | [] => verdicts = []
    | [r] =>
        r.(Storage.pp_pairId) = pairId /\ r.(Storage.pp_patternId) = pid
        /\ r.(Storage.occurrenceCount) = Z.of_nat (length verdicts)
    | _ => False
    end.
Proof.
  intros pairId pid verdicts.
  induction verdicts as [|[c t] verdicts IH] using rev_ind; [reflexivity|].
  unfold Inv.relation_events in *. rewrite map_app. simpl map.
  rewrite PairStatsFacts.pair_feedback_run_snoc. simpl.
  rewrite length_app, Nat2Z.inj_add. simpl.
  destruct (Storage.pair_feedback_run _ Storage.emptyPairPatterns)
    as [rows nextId]; simpl in IH.
  destruct rows as [|r [|r' rows]]; try contradiction.
  - subst verdicts. unfold Storage.updateTradingPairStats; simpl.
    destruct c; repeat split; reflexivity.
  - destruct IH as (Hpair & Hpid & Hocc).
    unfold Storage.updateTradingPairStats; simpl.
    rewrite Hpair, Hpid, !Z.eqb_refl. simpl. rewrite Z.eqb_refl. simpl.
    repeat split; lia.
Qed.

Module AiStatsFacts.
Import Storage Inv.

Lemma stats_run_snoc events e stats :
  stats_run (events ++ [e]) stats
  = updateAiStats e.(se_available) e.(se_newAnalysis) e.(se_newFeedback)
      e.(se_isCorrect) e.(se_patternQuery) e.(se_now) (stats_run events stats).
Proof. unfold stats_run. now rewrite fold_left_app. Qed.

Lemma inject_Z_nonneg z : 0 <= z -> (0 <= inject_Z z)%Q.
Proof. intros H. change 0%Q with (inject_Z 0). now rewrite <- Zle_Qle. Qed.

(** The running accuracy stays a fraction, from the first verdict on. *)
Lemma accuracy_step (acc : Q) (n : Z) (b : Q) :
  0 <= n -> (0 <= acc <= 1)%Q -> (0 <= b <= 1)%Q ->
  (0 <= (acc * inject_Z n + b) / inject_Z (n + 1) <= 1)%Q.
Proof.
  intros Hn Hacc Hb.
  pose proof (inject_Z_nonneg n Hn) as Hq.
  assert (Hden : (0 < inject_Z (n + 1))%Q).
  { rewrite PairStatsFacts.inject_Z_succ. lra. }
  split.
  - apply Qle_shift_div_l; [exact Hden|]. nra.
  - apply Qle_shift_div_r; [exact Hden|].
    rewrite PairStatsFacts.inject_Z_succ. nra.
Qed.

End AiStatsFacts.

(** X10.  After any run of calls of [updateAiStats] made one after the
    other, from a table without a row, there is a row exactly when a call
    reached the table; the row counts the analyses and the verdicts of the
    calls that reached the table, and its overall accuracy is within
    [0, 1]. *)
Theorem ai_stats_count_and_accuracy :
  forall events,
    match Storage.stats_run events None with
    | Some s =>
        0 < Spec.count Storage.se_available events
        /\ s.(Storage.totalAnalyses) = Spec.count Inv.counts_analysis events
        /\ s.(Storage.st_feedbackCount) = Spec.count Inv.counts_feedback events
        /\ (0 <= s.(Storage.overallAccuracy) <= 1)%Q
    | None => Spec.count Storage.se_available events = 0
    end.
Proof.
  intros events. induction events as [|e events IH] using rev_ind;
    [reflexivity|].
  rewrite AiStatsFacts.stats_run_snoc, !CountFacts.count_app.
  cbn [Spec.count]. unfold Inv.counts_analysis at 2, Inv.counts_feedback at 2.
  pose proof (CountFacts.count_bounds Inv.counts_feedback events) as Hfb.
  pose proof (CountFacts.count_bounds Storage.se_available events) as Hav.
  destruct e as [available newAnalysis newFeedback isCorrect query now].
  unfold Storage.updateAiStats. simpl.
  destruct available; simpl.
  - destruct (Storage.stats_run events None) as [s|]; simpl.
    + destruct IH as (Hreached & Ht & Hf & Hb). rewrite Ht, Hf in *.
      set (n := Spec.count Inv.counts_feedback events) in *.
      destruct newAnalysis, newFeedback, isCorrect; simpl;
        rewrite ?Z.add_0_r; repeat split; try lia;
        try apply Hb;
        try (apply AiStatsFacts.accuracy_step; [lia|exact Hb|lra]).
    + assert (Hz : Spec.count Inv.counts_analysis events = 0
                   /\ Spec.count Inv.counts_feedback events = 0).
      { clear -IH. induction events as [|e events IHe]; [repeat split|].
        simpl in IH.
        pose proof (CountFacts.count_bounds Storage.se_available events).
        unfold Inv.counts_analysis, Inv.counts_feedback in *. simpl.
        destruct (Storage.se_available e); [lia|]. simpl.
        apply IHe. lia. }
      destruct Hz as (-> & ->).
      destruct newAnalysis, newFeedback, isCorrect; simpl;
        repeat split; try lia; try lra; try reflexivity.
  - destruct (Storage.stats_run events None) as [s|]; simpl;
      rewrite ?Z.add_0_r; exact IH.
Qed.

(* ===================================================================== *)
(** ** More on the profiles of the pairs                                 *)
(* ===================================================================== *)

Module ProfileFacts.
Import JS Openai Inv.

Lemma profile_run_snoc calls call table :
  profile_run (calls ++ [call]) table
  = updatePairProfile call.1.1 call.1.2 call.2 (profile_run calls table).
Proof. unfold profile_run. now rewrite fold_left_app. Qed.

(** The profile of another pair is not touched. *)
Lemma updatePairProfile_other info p now table q :
  info.(pair) <> q ->
  updatePairProfile info p now table !! q = table !! q.
Proof.
  intros Hne. unfold updatePairProfile.
  destruct (table !! pair info); now rewrite lookup_insert_ne.
Qed.

(** The profile written depends on the profile read only. *)
Lemma updatePairProfile_local info p now table1 table2 :
  table1 !! info.(pair) = table2 !! info.(pair) ->
  updatePairProfile info p now table1 !! info.(pair)
  = updatePairProfile info p now table2 !! info.(pair).
Proof.
  intros Heq. unfold updatePairProfile. rewrite Heq.
  destruct (table2 !! pair info); now rewrite !lookup_insert_eq.
Qed.

Lemma profile_run_local calls q : forall table1 table2,
  table1 !! q = table2 !! q ->
  profile_run calls table1 !! q
  = profile_run (List.filter (for_pair q) calls) table2 !! q.
Proof.
  induction calls as [|[[info p] now] calls IH]; intros t1 t2 Heq; [exact Heq|].
  simpl. unfold for_pair at 1. simpl.
  destruct (String.eqb_spec (pair info) q) as [E|E].
  - simpl. apply IH. subst q. now apply updatePairProfile_local.
  - apply IH. now rewrite updatePairProfile_other.
Qed.

Lemma tail_snoc {A} (l : list A) x :
  l <> [] -> tail (l ++ [x]) = tail l ++ [x].
Proof. destruct l; [congruence|reflexivity]. Qed.

End ProfileFacts.

(** X11.  The profile of a pair depends on the analyses of that pair only:
    after any run from the empty table it is the profile that the analyses
    of the pair alone, in their order, give. *)
Theorem profile_depends_on_its_pair_only :
  forall calls q,
    Inv.profile_run calls ∅ !! q
    = Inv.profile_run (List.filter (Inv.for_pair q) calls) ∅ !! q.
Proof.
  intros calls q. now apply ProfileFacts.profile_run_local.
Qed.

(** X12.  The occurrence count of a pattern in the profile of a pair is the
    number of analyses of the pair with that pattern, the first analysis of
    the pair, which creates the profile, not counted; the pair has no
    profile exactly when it has no analysis. *)
Theorem profile_counts_patterns_after_the_first :
  forall calls q p,
    let own := List.filter (Inv.for_pair q) calls in
    match Inv.profile_run calls ∅ !! q with
    | Some d =>
        own <> []
        /\ default 0 (d.(Openai.patterns) !! p)
           = Spec.count (Inv.with_pattern p) (tail own)
    | None => own = []
    end.
Proof.
  intros calls q p. cbv zeta.
  induction calls as [|[[info p'] now] calls IH] using rev_ind;
    [reflexivity|].
  rewrite ProfileFacts.profile_run_snoc, List.filter_app. simpl.
  change (Inv.for_pair q (info, p', now))
    with (String.eqb (Openai.pair info) q).
  destruct (String.eqb_spec (Openai.pair info) q) as [E|E].
  - subst q. unfold Openai.updatePairProfile.
    destruct (Inv.profile_run calls ∅ !! Openai.pair info) as [d|]; simpl.
    + destruct IH as [Hne Hcount]. rewrite lookup_insert_eq. simpl.
      split; [destruct (List.filter _ calls); [congruence|discriminate]|].
      rewrite ProfileFacts.tail_snoc by exact Hne.
      rewrite CountFacts.count_app. cbn [Spec.count].
      unfold Inv.with_pattern at 2. simpl.
      destruct (String.eqb_spec p' p) as [->|Hp].
      * rewrite lookup_insert_eq. simpl. rewrite <- Hcount.
        destruct (Openai.patterns d !! p); simpl; lia.
      * rewrite lookup_insert_ne by exact Hp. lia.
    + rewrite IH, lookup_insert_eq. simpl. split; [discriminate|].
      rewrite lookup_empty. reflexivity.
  - rewrite ProfileFacts.updatePairProfile_other by exact E.
    rewrite app_nil_r. exact IH.
Qed.

(** X13.  After any run of analyses from the empty table the volatility of
    every profile is non-negative. *)
Theorem profile_volatility_nonnegative :
  forall calls,
    map_Forall (fun _ d => (0 <= d.(Openai.volatility))%Q)
               (Inv.profile_run calls ∅).
Proof.
  intros calls. induction calls as [|[[info p] now] calls IH] using rev_ind.
  - apply map_Forall_empty.
  - rewrite ProfileFacts.profile_run_snoc. simpl.
    unfold Openai.updatePairProfile.
    destruct (Inv.profile_run calls ∅ !! Openai.pair info) as [d|] eqn:Hd;
      (apply map_Forall_insert_2; [|exact IH]); cbn [Openai.volatility].
    + pose proof (IH _ _ Hd) as Hvol. simpl in Hvol.
      destruct (_ && _); [|exact Hvol].
      unfold JS.Math_abs.
      match goal with
      | |- context [Qabs ?x] =>
          pose proof (Qabs_nonneg x); set (a := Qabs x) in *
      end.
      set (v := Openai.volatility d) in *. lra.
    + unfold Qle; simpl; lia.
Qed.



Module PriceFacts.
Import JS Openai Inv.

Lemma or_else_truthy x d : truthy x = true -> or_else x d = num x.
Proof.
  unfold truthy, num, or_else. destruct x as [q|]; [|discriminate].
  destruct (Qeq_bool q 0); [discriminate|reflexivity].
Qed.

Lemma or_else_falsy x d : truthy x = false -> or_else x d = d.
Proof.
  unfold truthy, or_else. destruct x as [q|]; [|reflexivity].
  destruct (Qeq_bool q 0); [reflexivity|discriminate].
Qed.

(** The last seen price after one more analysis of the pair. *)
Lemma updatePairProfile_price info p now table :
  exists d,
    updatePairProfile info p now table !! info.(pair) = Some d
    /\ d.(lastSeenPrice)
       = or_else info.(entry)
           (default 0%Q (lastSeenPrice <$> table !! info.(pair))).
Proof.
  unfold updatePairProfile.
  destruct (table !! pair info) as [d|]; rewrite lookup_insert_eq;
    eexists; split; reflexivity.
Qed.

Lemma filter_all {A} (test : A -> bool) l :
  Forall (fun x => test x = true) (List.filter test l).
Proof.
  apply List.Forall_forall. intros x Hx. now apply List.filter_In in Hx.
Qed.

Lemma own_run_latest_price q before c after :
  Forall (fun x => for_pair q x = true) (before ++ c :: after) ->
  with_price c = true ->
  Forall (fun x => with_price x = false) after ->
  exists d,
    profile_run (before ++ c :: after) ∅ !! q = Some d
    /\ d.(lastSeenPrice) = num c.1.1.(entry).
Proof.
  induction after as [|c' after IH] using rev_ind; intros Hown Hc Hafter.
  - rewrite ProfileFacts.profile_run_snoc.
    apply Forall_app in Hown as [_ Hown].
    apply Forall_cons in Hown as [Hq _]. unfold for_pair in Hq.
    apply String.eqb_eq in Hq. subst q.
    destruct (updatePairProfile_price c.1.1 c.1.2 c.2
                (profile_run before ∅)) as (d & Hd & Hprice).
    exists d. split; [exact Hd|].
    rewrite Hprice. now apply or_else_truthy.
  - change (before ++ c :: after ++ [c'])
      with (before ++ (c :: after) ++ [c']) in *.
    rewrite app_assoc in *. rewrite ProfileFacts.profile_run_snoc.
    apply Forall_app in Hown as [Hown Hq].
    apply Forall_cons in Hq as [Hq _]. unfold for_pair in Hq.
    apply String.eqb_eq in Hq.
    apply Forall_app in Hafter as [Hafter Hc'].
    apply Forall_cons in Hc' as [Hc' _].
    destruct (IH Hown Hc Hafter) as (d & Hd & Hprice).
    destruct (updatePairProfile_price c'.1.1 c'.1.2 c'.2
                (profile_run (before ++ c :: after) ∅)) as (d' & Hd' & Hprice').
    rewrite Hq in *. exists d'. split; [exact Hd'|].
    rewrite Hprice', Hd. simpl. rewrite <- Hprice.
    now apply or_else_falsy.
Qed.

Lemma own_run_no_price q own :
  Forall (fun x => for_pair q x = true) own ->
  Forall (fun x => with_price x = false) own ->
  match profile_run own ∅ !! q with
  | Some d => d.(lastSeenPrice) = 0%Q
  | None => own = []
  end.
Proof.
  induction own as [|c own IH] using rev_ind; intros Hown Hprice;
    [reflexivity|].
  apply Forall_app in Hown as [Hown Hq].
  apply Forall_cons in Hq as [Hq _]. unfold for_pair in Hq.
  apply String.eqb_eq in Hq.
  apply Forall_app in Hprice as [Hprice Hc].
  apply Forall_cons in Hc as [Hc _].
  specialize (IH Hown Hprice).
  rewrite ProfileFacts.profile_run_snoc.
  destruct (updatePairProfile_price c.1.1 c.1.2 c.2 (profile_run own ∅))
    as (d' & Hd' & Hprice').
  rewrite Hq in *. rewrite Hd', Hprice'.
  rewrite or_else_falsy by exact Hc.
  destruct (profile_run own ∅ !! q) as [d|]; simpl; [exact IH|reflexivity].
Qed.

End PriceFacts.

(** X15.  The last seen price of a pair is the price of its latest analysis
    that carries one: analyses of the pair without a price (or with the
    price 0) after it, and analyses of other pairs, leave it as it is. *)
Theorem profile_keeps_latest_price :
  forall calls q before c after,
    List.filter (Inv.for_pair q) calls = before ++ c :: after ->
    Inv.with_price c = true ->
    Forall (fun x => Inv.with_price x = false) after ->
    exists d,
      Inv.profile_run calls ∅ !! q = Some d
      /\ d.(Openai.lastSeenPrice) = JS.num c.1.1.(Openai.entry).
Proof.
  intros calls q before c after Hown Hc Hafter.
  rewrite (ProfileFacts.profile_run_local calls q ∅ ∅ eq_refl), Hown.
  apply PriceFacts.own_run_latest_price; [|exact Hc|exact Hafter].
  rewrite <- Hown. apply PriceFacts.filter_all.
Qed.

Lemma profile_keeps_latest_price_witness :
  let c1 := (Openai.info_at "BTC/USD" (Some 61000%Q), "Doji Formation"%string, 1) in
  let c2 := (Openai.info_at "ETH/USD" (Some 3100%Q), "Doji Formation"%string, 2) in
  let c3 := (Openai.info_at "BTC/USD" (Some 62200%Q), "RSI Divergence"%string, 3) in
  let c4 := (Openai.info_at "BTC/USD" None, "Doji Formation"%string, 4) in
  let calls := [c1; c2; c3; c4] in
  List.filter (Inv.for_pair "BTC/USD") calls = [c1] ++ c3 :: [c4]
  /\ Inv.with_price c3 = true
  /\ Forall (fun x => Inv.with_price x = false) [c4]
  /\ exists d,
      Inv.profile_run calls ∅ !! "BTC/USD"%string = Some d
      /\ d.(Openai.lastSeenPrice) = JS.num c3.1.1.(Openai.entry).
Proof.
  intros c1 c2 c3 c4 calls.
  assert (Hown : List.filter (Inv.for_pair "BTC/USD") calls = [c1] ++ c3 :: [c4])
    by reflexivity.
  assert (Hc : Inv.with_price c3 = true) by reflexivity.
  assert (Hafter : Forall (fun x => Inv.with_price x = false) [c4])
    by (repeat constructor).
  split; [exact Hown|]. split; [exact Hc|]. split; [exact Hafter|].
  exact (profile_keeps_latest_price calls "BTC/USD"%string [c1] c3 [c4]
           Hown Hc Hafter).
Defined.

(** X16.  While no analysis of a pair carries a price (the entry is missing
    or 0) the last seen price of its profile stays 0, the value that stands
    for "unknown". *)
Theorem profile_price_unknown_without_prices :
  forall calls q,
    Forall (fun x => Inv.with_price x = false)
           (List.filter (Inv.for_pair q) calls) ->
    match Inv.profile_run calls ∅ !! q with
    | Some d => d.(Openai.lastSeenPrice) = 0%Q
    | None => List.filter (Inv.for_pair q) calls = []
    end.
Proof.
  intros calls q Hprice.
  rewrite (ProfileFacts.profile_run_local calls q ∅ ∅ eq_refl).
  apply PriceFacts.own_run_no_price; [apply PriceFacts.filter_all|exact Hprice].
Qed.

Lemma profile_price_unknown_without_prices_witness :
  let calls :=
    [ (Openai.info_at "USD/JPY" (Some 0%Q), "Doji Formation"%string, 1);
      (Openai.info_at "BTC/USD" (Some 61000%Q), "Doji Formation"%string, 2);
      (Openai.info_at "USD/JPY" None, "RSI Divergence"%string, 3) ] in
  Forall (fun x => Inv.with_price x = false)
         (List.filter (Inv.for_pair "USD/JPY") calls)
  /\ match Inv.profile_run calls ∅ !! "USD/JPY"%string with
     | Some d => d.(Openai.lastSeenPrice) = 0%Q
     | None => List.filter (Inv.for_pair "USD/JPY") calls = []
     end.
Proof.
  intros calls.
  assert (Hprice : Forall (fun x => Inv.with_price x = false)
                          (List.filter (Inv.for_pair "USD/JPY") calls))
    by (repeat constructor).
  split; [exact Hprice|].
  exact (profile_price_unknown_without_prices calls "USD/JPY"%string Hprice).
Defined.

(* ===================================================================== *)
(** ** More on the pattern selector                                      *)
(* ===================================================================== *)


Module SignFacts.
Import JS Openai Inv.

Lemma mul_pos_sign (x k : Q) :
  (0 < k)%Q -> ((x * k < 0 <-> x < 0) /\ (x * k == 0 <-> x == 0))%Q.
Proof.
  intros Hk. split; split; intros H.
  - destruct (Qlt_le_dec x 0) as [L|L]; [exact L|]. exfalso. nra.
  - nra.
  - destruct (Qmult_integral _ _ H) as [E|E]; [exact E|]. lra.
  - rewrite H. ring.
Qed.

(** The counts of the profiles a run builds are positive. *)
Lemma profile_run_counts calls :
  map_Forall (fun _ d => map_Forall (fun _ n => 1 <= n) d.(patterns))
             (profile_run calls ∅).
Proof.
  induction calls as [|[[info p] now] calls IH] using rev_ind.
  - apply map_Forall_empty.
  - rewrite ProfileFacts.profile_run_snoc. simpl. unfold updatePairProfile.
    destruct (profile_run calls ∅ !! pair info) as [d|] eqn:Hd;
      (apply map_Forall_insert_2; [|exact IH]); cbn [patterns].
    + pose proof (IH _ _ Hd) as Hcounts. simpl in Hcounts.
      apply map_Forall_insert_2; [|exact Hcounts].
      destruct (patterns d !! p) as [n|] eqn:Hn; [|lia].
      pose proof (Hcounts _ _ Hn). simpl in *. lia.
    + apply map_Forall_empty.
Qed.

(** The affinity of the pair and the affinity of the history multiply the
    weight by a factor of at least 1. *)
Lemma patternWeight_factor learned calls info history p :
  exists k : Q,
    (1 <= k)%Q
    /\ (patternWeight learned (profile_run calls ∅) info history p
        == match learned !! p with
           | Some d =>
               if 0 <? d.(feedbackCount)
               then (1 + inject_Z d.(confidenceAdjustment))
                    * ((1 # 2) + successRate d)
               else 1 + inject_Z d.(confidenceAdjustment)
           | None => 1
           end * k)%Q.
Proof.
  unfold patternWeight. cbv zeta.
  set (stage := match learned !! p with Some _ => _ | None => _ end).
  clearbody stage.
  set (n := Z.of_nat (length _)).
  assert (Hn : (0 <= inject_Z n)%Q).
  { apply AiStatsFacts.inject_Z_nonneg. unfold n. lia. }
  clearbody n.
  pose proof (profile_run_counts calls) as Hcounts.
  destruct (profile_run calls ∅ !! pair info) as [d|] eqn:Hd.
  - pose proof (Hcounts _ _ Hd) as Hd'. simpl in Hd'.
    destruct (patterns d !! p) as [occ|] eqn:Hocc.
    + pose proof (Hd' _ _ Hocc) as Hpos. simpl in Hpos.
      destruct (Z.eqb_spec occ 0) as [E|E]; [lia|].
      pose proof (PairStatsFacts.inject_Z_pos occ Hpos) as Hq.
      exists ((1 + inject_Z occ / 10) * (1 + inject_Z n / 10))%Q. split.
      * assert (0 <= inject_Z occ / 10)%Q by (apply Qle_shift_div_l; lra).
        assert (0 <= inject_Z n / 10)%Q by (apply Qle_shift_div_l; lra).
        nra.
      * ring.
    + exists (1 + inject_Z n / 10)%Q. split.
      * assert (0 <= inject_Z n / 10)%Q by (apply Qle_shift_div_l; lra). lra.
      * ring.
  - exists (1 + inject_Z n / 10)%Q. split.
    + assert (0 <= inject_Z n / 10)%Q by (apply Qle_shift_div_l; lra). lra.
    + ring.
Qed.

End SignFacts.

(** X18.  The sign of a selection weight, in every state the two tables can
    reach: without learning state the weight of a pattern is at least 1;
    with learning state it is negative exactly when the confidence
    adjustment is below -1 and zero exactly when the adjustment is -1. *)
Theorem weight_sign_follows_adjustment :
  forall feedback analyses info history p,
    let learned := Openai.feedback_run feedback ∅ in
    let weight :=
      Openai.patternWeight learned (Inv.profile_run analyses ∅) info history p in
    match learned !! p with
    | Some d =>
        ((weight < 0)%Q <-> d.(Openai.confidenceAdjustment) < -1)
        /\ ((weight == 0)%Q <-> d.(Openai.confidenceAdjustment) = -1)
    | None => (1 <= weight)%Q
    end.
Proof.
  intros feedback analyses info history p learned weight.
  destruct (SignFacts.patternWeight_factor learned analyses info history p)
    as (k & Hk & Hw).
  fold weight in Hw.
  pose proof (CountFacts.feedback_run_settled feedback ∅ (map_Forall_empty _) p)
    as Hsettled. fold learned in Hsettled.
  destruct (learned !! p) as [d|].
  - destruct (Hsettled d eq_refl) as (Hs & _ & _).
    set (a := Openai.confidenceAdjustment d) in *.
    assert (Hfactor : exists K : Q, (0 < K)%Q
                                    /\ (weight == (1 + inject_Z a) * K)%Q).
    { destruct (Z.ltb_spec 0 (Openai.feedbackCount d)) as [Hfc|Hfc].
      - exists (((1 # 2) + Openai.successRate d) * k)%Q. split.
        + assert (0 <= Openai.successRate d)%Q.
          { unfold Openai.successRate. apply Qle_shift_div_l.
            - change 0%Q with (inject_Z 0). now rewrite <- Zlt_Qlt.
            - rewrite Qmult_0_l. apply AiStatsFacts.inject_Z_nonneg. lia. }
          nra.
        + rewrite Hw. ring.
      - exists k. split; [lra|exact Hw]. }
    destruct Hfactor as (K & HK & HwK).
    destruct (SignFacts.mul_pos_sign (1 + inject_Z a) K HK) as [Hneg Hzero].
    rewrite HwK. rewrite Hneg, Hzero.
    change 1%Q with (inject_Z 1). rewrite <- inject_Z_plus.
    change 0%Q with (inject_Z 0). rewrite <- Zlt_Qlt, inject_Z_injective.
    split; split; lia.
  - rewrite Hw. nra.
Qed.

(** X19.  With a known last price of the pair and a price in the analysis
    the direction is read off the prices: the prediction is bullish exactly
    when the price is above the last seen one, whatever the draws and
    whatever was learned. *)
Theorem prediction_follows_price :
  forall learned profiles info history random d,
    Openai.unit_interval random.(Openai.d_category) ->
    profiles !! info.(Openai.pair) = Some d ->
    ~ (d.(Openai.lastSeenPrice) == 0)%Q ->
    JS.truthy info.(Openai.entry) = true ->
    exists r,
      Openai.enhancedPatternRecognition learned profiles info history random
        = Some r
      /\ (r.(Openai.r_prediction) = Openai.bullish
          <-> (d.(Openai.lastSeenPrice) < JS.num info.(Openai.entry))%Q).
Proof.
  intros learned profiles info history random d Hrange Hd Hlast Hentry.
  unfold Openai.enhancedPatternRecognition.
  destruct (SelectorFacts.selectCategory_in_taxonomy _ Hrange)
    as (first & rest & -> & _).
  eexists; split; [reflexivity|]. cbn [Openai.r_prediction].
  unfold Openai.predictDirection. rewrite Hd, Hentry.
  assert (Hz : Qeq_bool (Openai.lastSeenPrice d) 0 = false).
  { destruct (Qeq_bool _ 0) eqn:E; [|reflexivity].
    apply Qeq_bool_iff in E. contradiction. }
  rewrite Hz. cbn [negb andb fst].
  destruct (Qle_bool (JS.num (Openai.entry info)) (Openai.lastSeenPrice d)) eqn:E.
  - apply Qle_bool_iff in E. split; [discriminate|]. intros H. lra.
  - split; [intros _|reflexivity].
    apply Qnot_le_lt. intros H. apply Qle_bool_iff in H. congruence.
Qed.

Lemma prediction_follows_price_witness :
  let d := {| Openai.patterns := ∅; Openai.volatility := (2 # 100)%Q;
              Openai.lastSeenPrice := 61000%Q; Openai.firstSeenDate := 1;
              Openai.pairLastUpdated := 1 |} in
  let profiles : gmap string Openai.PairData := {[ "BTC/USD"%string := d ]} in
  let info := Openai.info_at "BTC/USD" (Some 62200%Q) in
  let random := Openai.draws_for 2 1 5 in
  Openai.unit_interval random.(Openai.d_category)
  /\ profiles !! info.(Openai.pair) = Some d
  /\ ~ (d.(Openai.lastSeenPrice) == 0)%Q
  /\ JS.truthy info.(Openai.entry) = true
  /\ exists r,
      Openai.enhancedPatternRecognition ∅ profiles info [] random = Some r
      /\ (r.(Openai.r_prediction) = Openai.bullish
          <-> (d.(Openai.lastSeenPrice) < JS.num info.(Openai.entry))%Q).
Proof.
  intros d profiles info random.
  assert (Hrange : Openai.unit_interval random.(Openai.d_category))
    by (vm_compute; split; [discriminate|reflexivity]).
  assert (Hd : profiles !! info.(Openai.pair) = Some d) by reflexivity.
  assert (Hlast : ~ (d.(Openai.lastSeenPrice) == 0)%Q) by discriminate.
  assert (Hentry : JS.truthy info.(Openai.entry) = true) by reflexivity.
  split; [exact Hrange|]. split; [exact Hd|]. split; [exact Hlast|].
  split; [exact Hentry|].
  exact (prediction_follows_price ∅ profiles info [] random d
           Hrange Hd Hlast Hentry).
Defined.

(* ===================================================================== *)
(** ** More on the statistics blender                                    *)
(* ===================================================================== *)

Module BlendFacts.
Import JS Openai Inv.

(** Rounding keeps a number between two integers between them. *)
Lemma Math_round_range (lo hi : Z) (x : Q) :
  (inject_Z lo <= x <= inject_Z hi)%Q -> lo <= Math_round x <= hi.
Proof.
  intros [Hlo Hhi]. unfold Math_round. split.
  - rewrite <- (Qfloor_Z lo). apply Qfloor_resp_le. lra.
  - pose proof (Qfloor_le (x + (1 # 2))) as Hfl.
    assert (Hlt : (inject_Z (Qfloor (x + (1 # 2))) < inject_Z (hi + 1))%Q).
    { rewrite PairStatsFacts.inject_Z_succ. lra. }
    rewrite <- Zlt_Qlt in Hlt. lia.
Qed.

(** A blend of two percentages is a percentage. *)
Lemma blend_range (w : Z) (rate factor : Q) :
  0 <= w <= 100 -> (0 <= rate <= 100)%Q -> (0 <= factor <= 1)%Q ->
  0 <= Math_round (inject_Z w * (1 - factor) + rate * factor) <= 100.
Proof.
  intros Hw Hrate Hfactor. apply Math_round_range.
  assert (0 <= inject_Z w <= 100)%Q.
  { split; [apply AiStatsFacts.inject_Z_nonneg; lia|].
    change 100%Q with (inject_Z 100). rewrite <- Zle_Qle. lia. }
  change (inject_Z 0) with 0%Q. change (inject_Z 100) with 100%Q.
  split; nra.
Qed.

(** A ratio of counts, as a percentage. *)
Lemma percentage_range (part whole : Z) :
  0 <= part <= whole -> 0 < whole ->
  (0 <= inject_Z part / inject_Z whole * 100 <= 100)%Q.
Proof.
  intros Hpart Hwhole.
  assert (Hw : (0 < inject_Z whole)%Q)
    by (change 0%Q with (inject_Z 0); now rewrite <- Zlt_Qlt).
  assert (Hp : (0 <= inject_Z part)%Q)
    by (apply AiStatsFacts.inject_Z_nonneg; lia).
  assert (Hle : (inject_Z part <= inject_Z whole)%Q)
    by (rewrite <- Zle_Qle; lia).
  assert (H0 : (0 <= inject_Z part / inject_Z whole)%Q)
    by (apply Qle_shift_div_l; lra).
  assert (H1 : (inject_Z part / inject_Z whole <= 1)%Q)
    by (apply Qle_shift_div_r; lra).
  lra.
Qed.

(** A blend factor [Math.min(n/k, cap)] is a fraction. *)
Lemma factor_range (n : Z) (k cap : Q) :
  0 <= n -> (0 < k)%Q -> (0 <= cap <= 1)%Q ->
  (0 <= Math_min (inject_Z n / k) cap <= 1)%Q.
Proof.
  intros Hn Hk Hcap.
  assert (0 <= inject_Z n / k)%Q.
  { apply Qle_shift_div_l; [exact Hk|].
    pose proof (AiStatsFacts.inject_Z_nonneg n Hn). lra. }
  destruct (SelectorFacts.Math_min_cases (inject_Z n / k) cap)
    as [[H1 ->]|[H1 ->]]; lra.
Qed.

End BlendFacts.

(** X20.  For every learning table the feedback integrator can build, every
    history and every draw of the unit interval, the win rate of the
    statistics blender is a percentage, within [0, 100], and the sample size
    is at least 150. *)
Theorem generatePatternStatistics_is_a_percentage :
  forall feedback p history randWinRate randSampleSize,
    Openai.unit_interval randWinRate ->
    Openai.unit_interval randSampleSize ->
    let s := Openai.generatePatternStatistics (Openai.feedback_run feedback ∅)
               p history randWinRate randSampleSize in
    0 <= s.(Openai.s_winRate) <= 100 /\ 150 <= s.(Openai.s_sampleSize).
Proof.
  intros feedback p history r1 r2 Hr1 Hr2 s. split.
  2: { apply RangeFacts.sampleSize_at_least_150. apply Hr2. }
  unfold s, Openai.generatePatternStatistics.
  pose proof (SelectorFacts.floor_of_draw r1 20 ltac:(lia) Hr1) as Hbase.
  change (inject_Z 20) with 20%Q in Hbase.
  set (base := JS.Math_floor (r1 * 20)) in *. clearbody base.
  set (size := 150 + JS.Math_floor (r2 * 350)). clearbody size.
  pose proof (CountFacts.feedback_run_settled feedback ∅ (map_Forall_empty _) p)
    as Hsettled.
  set (learnt := match Openai.feedback_run feedback ∅ !! p with
                 | Some _ => _ | None => _ end).
  assert (Hlearnt : 0 <= learnt.1 <= 100).
  { unfold learnt. destruct (Openai.feedback_run feedback ∅ !! p) as [d|];
      [|simpl; lia].
    destruct (Hsettled d eq_refl) as (Hs & _ & _).
    destruct (Z.ltb_spec 0 (Openai.feedbackCount d)) as [Hfc|Hfc];
      [|simpl; lia].
    cbn [fst]. apply BlendFacts.blend_range; [lia| |].
    - apply BlendFacts.percentage_range; [exact Hs|exact Hfc].
    - apply BlendFacts.factor_range; [lia|lra|lra]. }
  destruct learnt as [winRate sampleSize]. simpl in Hlearnt.
  set (own := List.filter _ history).
  destruct (Z.ltb_spec 0 (Z.of_nat (length own))) as [Hlen|Hlen];
    cbn [Openai.s_winRate]; [|exact Hlearnt].
  apply BlendFacts.blend_range; [exact Hlearnt| |].
  - apply BlendFacts.percentage_range; [|exact Hlen].
    split; [lia|]. apply Nat2Z.inj_le, List.filter_length_le.
  - apply BlendFacts.factor_range; [lia|lra|lra].
Qed.

Lemma generatePatternStatistics_is_a_percentage_witness :
  let feedback := Openai.feedback_times 10 "Hammer Candlestick" false in
  Openai.unit_interval 0 /\ Openai.unit_interval (1 # 2)
  /\ let s := Openai.generatePatternStatistics (Openai.feedback_run feedback ∅)
                "Hammer Candlestick" [] 0 (1 # 2) in
     0 <= s.(Openai.s_winRate) <= 100 /\ 150 <= s.(Openai.s_sampleSize).
Proof.
  intros feedback.
  assert (H1 : Openai.unit_interval 0)
    by (vm_compute; split; [discriminate|reflexivity]).
  assert (H2 : Openai.unit_interval (1 # 2))
    by (vm_compute; split; [discriminate|reflexivity]).
  split; [exact H1|]. split; [exact H2|].
  exact (generatePatternStatistics_is_a_percentage feedback
           "Hammer Candlestick"%string [] 0%Q (1 # 2)%Q H1 H2).
Defined.

(** X21.  Without learning state for the pattern and without a historical
    outcome of its name the statistics are the random baseline: a win rate
    within [65, 84] and a sample size within [150, 499]. *)
Theorem generatePatternStatistics_baseline :
  forall learned p history randWinRate randSampleSize,
    learned !! p = None ->
    Forall (fun item => item.(Openai.h_pattern) <> p) history ->
    Openai.unit_interval randWinRate ->
    Openai.unit_interval randSampleSize ->
    let s := Openai.generatePatternStatistics learned p history
               randWinRate randSampleSize in
    65 <= s.(Openai.s_winRate) <= 84 /\ 150 <= s.(Openai.s_sampleSize) <= 499.
Proof.
  intros learned p history r1 r2 Hnone Hhistory Hr1 Hr2 s.
  unfold s, Openai.generatePatternStatistics. rewrite Hnone.
  assert (Hown : List.filter (fun item => String.eqb item.(Openai.h_pattern) p)
                             history = []).
  { induction Hhistory as [|item history Hitem _ IH]; [reflexivity|].
    simpl. destruct (String.eqb_spec (Openai.h_pattern item) p);
      [contradiction|exact IH]. }
  rewrite Hown.
  pose proof (SelectorFacts.floor_of_draw r1 20 ltac:(lia) Hr1) as Hw.
  pose proof (SelectorFacts.floor_of_draw r2 350 ltac:(lia) Hr2) as Hs.
  change (inject_Z 20) with 20%Q in Hw. change (inject_Z 350) with 350%Q in Hs.
  set (w := JS.Math_floor (r1 * 20)) in *.
  set (n := JS.Math_floor (r2 * 350)) in *. clearbody w n.
  simpl. lia.
Qed.

Lemma generatePatternStatistics_baseline_witness :
  Openai.feedback_run (Openai.feedback_times 3 "Doji Formation" true) ∅
    !! "RSI Divergence"%string = None
  /\ Forall (fun item => item.(Openai.h_pattern) <> "RSI Divergence"%string) []
  /\ Openai.unit_interval (3 # 4) /\ Openai.unit_interval (1 # 3)
  /\ let s := Openai.generatePatternStatistics
                (Openai.feedback_run
                   (Openai.feedback_times 3 "Doji Formation" true) ∅)
                "RSI Divergence" [] (3 # 4) (1 # 3) in
     65 <= s.(Openai.s_winRate) <= 84 /\ 150 <= s.(Openai.s_sampleSize) <= 499.
Proof.
  assert (Hnone : Openai.feedback_run
                    (Openai.feedback_times 3 "Doji Formation" true) ∅
                    !! "RSI Divergence"%string = None)
    by (vm_compute; reflexivity).
  assert (Hhistory : Forall (fun item : Openai.TAnalysisHistoryItem =>
                               item.(Openai.h_pattern) <> "RSI Divergence"%string) [])
    by constructor.
  assert (H1 : Openai.unit_interval (3 # 4))
    by (vm_compute; split; [discriminate|reflexivity]).
  assert (H2 : Openai.unit_interval (1 # 3))
    by (vm_compute; split; [discriminate|reflexivity]).
  split; [exact Hnone|]. split; [exact Hhistory|]. split; [exact H1|].
  split; [exact H2|].
  exact (generatePatternStatistics_baseline _ "RSI Divergence"%string []
           (3 # 4)%Q (1 # 3)%Q Hnone Hhistory H1 H2).
Defined.

(* ===================================================================== *)
(** ** More on the wrapper                                               *)
(* ===================================================================== *)

Module NormaliseFacts.
Import JS ChartAnalyzer.

Lemma Math_round_integer c : Math_round (inject_Z c) = c.
Proof.
  pose proof (BlendFacts.Math_round_range c c (inject_Z c)
                (conj (Qle_refl _) (Qle_refl _))). lia.
Qed.

(** A clamped number is its own clamp. *)
Lemma clamped_idempotent lo hi x :
  lo <= hi ->
  clamped lo hi (clamped lo hi x) = clamped lo hi x.
Proof.
  intros Hlohi.
  destruct x as [q| | |]; cbn [clamped]; try reflexivity;
    rewrite Math_round_integer; do 2 f_equal; lia.
Qed.

Lemma normalise_prediction a :
  (normalise a).(prediction) = "bullish"%string
  \/ (normalise a).(prediction) = "bearish"%string.
Proof.
  unfold normalise; cbn [prediction].
  destruct (String.eqb_spec (prediction a) "bullish") as [E|E]; simpl;
    [left; exact E|].
  destruct (String.eqb_spec (prediction a) "bearish") as [E'|E'];
    [right; exact E'|].
  destruct (includes _ _); [left|right]; reflexivity.
Qed.

End NormaliseFacts.

(** X22.  The normalisation of the wrapper is idempotent: an analysis that
    went through it is left as it is by a second pass. *)
Theorem normalise_idempotent :
  forall a,
    ChartAnalyzer.normalise (ChartAnalyzer.normalise a)
    = ChartAnalyzer.normalise a.
Proof.
  intros a.
  pose proof (NormaliseFacts.normalise_prediction a) as Hp.
  destruct (WrapperFacts.normalise_clamped (ChartAnalyzer.normalise a))
    as (Hc2 & Hw2 & Hs2).
  destruct (WrapperFacts.normalise_clamped a) as (Hc & Hw & Hs).
  rewrite Hc, (NormaliseFacts.clamped_idempotent 1 100), <- Hc in Hc2 by lia.
  rewrite Hw, (NormaliseFacts.clamped_idempotent 50 90), <- Hw in Hw2 by lia.
  rewrite Hs, (NormaliseFacts.clamped_idempotent 50 500), <- Hs in Hs2 by lia.
  assert (Hpred :
    (ChartAnalyzer.normalise (ChartAnalyzer.normalise a)).(ChartAnalyzer.prediction)
    = (ChartAnalyzer.normalise a).(ChartAnalyzer.prediction)).
  { unfold ChartAnalyzer.normalise at 1. cbn [ChartAnalyzer.prediction].
    destruct Hp as [-> | ->]; reflexivity. }
  assert (Hpat :
    (ChartAnalyzer.normalise (ChartAnalyzer.normalise a)).(ChartAnalyzer.pattern)
    = (ChartAnalyzer.normalise a).(ChartAnalyzer.pattern)) by reflexivity.
  assert (Hexp :
    (ChartAnalyzer.normalise (ChartAnalyzer.normalise a)).(ChartAnalyzer.explanation)
    = (ChartAnalyzer.normalise a).(ChartAnalyzer.explanation)) by reflexivity.
  destruct (ChartAnalyzer.normalise (ChartAnalyzer.normalise a)),
    (ChartAnalyzer.normalise a).
  cbn [ChartAnalyzer.pattern ChartAnalyzer.prediction ChartAnalyzer.confidence
       ChartAnalyzer.winRate ChartAnalyzer.sampleSize
       ChartAnalyzer.explanation] in *.
  congruence.
Qed.

(** X23.  Whatever word the analyser used, the prediction [analyzeChart]
    returns is "bullish" or "bearish". *)
Theorem analyzeChart_prediction_is_a_direction :
  forall getAnalysisHistory key analyzeChartWithOpenAI analyzeChartImage image r,
    ChartAnalyzer.analyzeChart getAnalysisHistory key
                               analyzeChartWithOpenAI analyzeChartImage image
    = ChartAnalyzer.Returned r ->
    r.(ChartAnalyzer.prediction) = "bullish"%string
    \/ r.(ChartAnalyzer.prediction) = "bearish"%string.
Proof.
  intros getHistory key openai simulated image r.
  unfold ChartAnalyzer.analyzeChart, ChartAnalyzer.rethrow.
  destruct getHistory as [history|message]; [|discriminate].
  set (analysis := match key with
                   | Some (String _ _) => _
                   | _ => _
                   end).
  destruct analysis as [a|message]; [|discriminate].
  intros [= <-]. apply NormaliseFacts.normalise_prediction.
Qed.

Lemma analyzeChart_prediction_is_a_direction_witness :
  let openai := fun (_ : string) (_ : list Openai.TAnalysisHistoryItem) =>
                  ChartAnalyzer.Returned
                    {| ChartAnalyzer.pattern := "Double Top";
                       ChartAnalyzer.prediction := "Strongly BULLISH";
                       ChartAnalyzer.confidence := JS.Fin 75;
                       ChartAnalyzer.winRate := JS.Fin 70;
                       ChartAnalyzer.sampleSize := JS.Fin 250;
                       ChartAnalyzer.explanation := "A double top" |} in
  let r := {| ChartAnalyzer.pattern := "Double Top";
              ChartAnalyzer.prediction := "bullish";
              ChartAnalyzer.confidence := JS.Fin 75;
              ChartAnalyzer.winRate := JS.Fin 70;
              ChartAnalyzer.sampleSize := JS.Fin 250;
              ChartAnalyzer.explanation := "A double top" |} in
  ChartAnalyzer.analyzeChart (ChartAnalyzer.Returned []) (Some "sk-test"%string)
                             openai openai "iVBORw0KGgo"
  = ChartAnalyzer.Returned r
  /\ (r.(ChartAnalyzer.prediction) = "bullish"%string
      \/ r.(ChartAnalyzer.prediction) = "bearish"%string).
Proof.
  intros openai r.
  assert (Hr : ChartAnalyzer.analyzeChart (ChartAnalyzer.Returned [])
                 (Some "sk-test"%string) openai openai "iVBORw0KGgo"
               = ChartAnalyzer.Returned r) by reflexivity.
  split; [exact Hr|].
  exact (analyzeChart_prediction_is_a_direction (ChartAnalyzer.Returned [])
           (Some "sk-test"%string) openai openai "iVBORw0KGgo"%string r Hr).
Defined.

(* ===================================================================== *)
(** ** The route of the feedback                                         *)
(* ===================================================================== *)

Module RouteFacts.
Import Openai Storage Routes.

Lemma map_get_set_eq {V} key (value : V) m :
  map_get key (map_set key value m) = Some value.
Proof.
  induction m as [|[k v] m IH]; simpl.
  - now rewrite String.eqb_refl.
  - destruct (String.eqb k key) eqn:E; simpl; rewrite E; [reflexivity|exact IH].
Qed.

Lemma feedback_requests_snoc requests request analyses learned :
  feedback_requests (requests ++ [request]) analyses learned
  = let state := feedback_requests requests analyses learned in
    let '(_, analyses', learned') :=
      postFeedbackMem request.1 request.2 state.1 state.2 in
    (analyses', learned').
Proof. unfold feedback_requests. now rewrite fold_left_app. Qed.

(** One accepted request over [MemStorage]. *)
Lemma postFeedbackMem_found id c now analyses learned existing :
  map_get id analyses = Some existing ->
  postFeedbackMem (feedback_request id c) now analyses learned
  = (Sent (Some (with_feedback existing c)),
     map_set id (with_feedback existing c) analyses,
     updateLearningModel existing c now learned).
Proof.
  intros Hget. unfold postFeedbackMem, postFeedback. simpl.
  unfold mem_getAnalysisById, mem_updateAnalysisFeedback. rewrite Hget.
  reflexivity.
Qed.

End RouteFacts.

(** X24.  The route does not check whether an analysis already has
    feedback: over [MemStorage], N requests for one stored analysis add N
    verdicts to the entry of its pattern, and the analysis keeps the verdict
    of the last request. *)
Theorem feedback_requests_count_every_time :
  forall id existing analyses (verdicts : list (bool * Openai.Date)),
    Storage.map_get id analyses = Some existing ->
    let state :=
      Routes.feedback_requests
        (map (fun v => (Routes.feedback_request id v.1, v.2)) verdicts)
        analyses ∅ in
    (exists stored,
       Storage.map_get id state.1 = Some stored
       /\ stored.(Openai.pattern) = existing.(Openai.pattern)
       /\ stored.(Openai.feedback)
          = List.last (map (fun v => Some v.1) verdicts) existing.(Openai.feedback))
    /\ match state.2 !! existing.(Openai.pattern) with
       | Some d =>
           d.(Openai.feedbackCount) = Z.of_nat (length verdicts)
           /\ d.(Openai.successCount) = Spec.count fst verdicts
       | None => verdicts = []
       end.
Proof.
  intros id existing analyses verdicts Hget. cbv zeta.
  induction verdicts as [|[c now] verdicts IH] using rev_ind.
  - simpl. split; [|reflexivity]. exists existing. repeat split. exact Hget.
  - rewrite map_app. simpl map. rewrite RouteFacts.feedback_requests_snoc.
    destruct (Routes.feedback_requests _ analyses ∅) as [an learned].
    simpl in IH. destruct IH as [(stored & Hstored & Hpattern & Hfeedback) Hentry].
    cbn [fst snd].
    rewrite (RouteFacts.postFeedbackMem_found id c now an learned stored Hstored).
    cbn [fst snd]. split.
    + exists (Storage.with_feedback stored c). repeat split.
      * apply RouteFacts.map_get_set_eq.
      * exact Hpattern.
      * rewrite map_app. simpl map. rewrite List.last_last. reflexivity.
    + rewrite LearningFacts.updateLearningModel_insert, Hpattern,
        lookup_insert_eq.
      rewrite length_app, CountFacts.count_app, Nat2Z.inj_add. simpl.
      destruct (learned !! Openai.pattern existing) as [d|]; simpl.
      * destruct Hentry as [Hf Hs]. rewrite Hf, Hs.
        destruct c; split; lia.
      * subst verdicts. destruct c; split; reflexivity.
Qed.

Lemma feedback_requests_count_every_time_witness :
  let existing := Openai.analysis_of "Doji Formation" in
  let analyses := [("a1"%string, existing)] in
  let verdicts := [(true, 1); (true, 2); (false, 3)] in
  Storage.map_get "a1" analyses = Some existing
  /\ let state :=
       Routes.feedback_requests
         (map (fun v => (Routes.feedback_request "a1" v.1, v.2)) verdicts)
         analyses ∅ in
     (exists stored,
        Storage.map_get "a1" state.1 = Some stored
        /\ stored.(Openai.pattern) = existing.(Openai.pattern)
        /\ stored.(Openai.feedback)
           = List.last (map (fun v => Some v.1) verdicts) existing.(Openai.feedback))
     /\ match state.2 !! existing.(Openai.pattern) with
        | Some d =>
            d.(Openai.feedbackCount) = Z.of_nat (length verdicts)
            /\ d.(Openai.successCount) = Spec.count fst verdicts
        | None => verdicts = []
        end.
Proof.
  intros existing analyses verdicts.
  assert (Hget : Storage.map_get "a1" analyses = Some existing) by reflexivity.
  split; [exact Hget|].
  exact (feedback_requests_count_every_time "a1"%string existing analyses
           verdicts Hget).
Defined.

(** X25.  A feedback request that is malformed, or whose analysis the
    storage does not return, is answered with 400, 404 or 500 and changes
    neither the storage nor the learning table. *)
Theorem postFeedback_rejection_changes_nothing :
  forall Store getAnalysisById updateAnalysisFeedback body now
         (store : Store) learned,
    (forall id c existing,
       Routes.parseFeedback body = Some (id, c) ->
       getAnalysisById id store
       <> ChartAnalyzer.Returned (Some existing)) ->
    exists status message,
      Routes.postFeedback Store getAnalysisById updateAnalysisFeedback
                          body now store learned
      = (Routes.Failed status message, store, learned)
      /\ (status = 400 \/ status = 404 \/ status = 500).
Proof.
  intros Store getById update body now store learned Hnone.
  unfold Routes.postFeedback.
  destruct (Routes.parseFeedback body) as [[id c]|].
  - specialize (Hnone id c).
    destruct (getById id store) as [[existing|]|message].
    + exfalso. exact (Hnone existing eq_refl eq_refl).
    + eexists _, _. split; [reflexivity|]. right; left; reflexivity.
    + eexists _, _. split; [reflexivity|]. right; right; reflexivity.
  - eexists _, _. split; [reflexivity|]. left; reflexivity.
Qed.

Lemma postFeedback_rejection_changes_nothing_witness :
  let getById := fun (id : string) (store : Storage.Analyses) =>
                   ChartAnalyzer.Returned (Storage.mem_getAnalysisById id store) in
  let update := fun (id : string) (c : bool) (store : Storage.Analyses) =>
                  (ChartAnalyzer.Returned (Storage.mem_updateAnalysisFeedback id c store).1,
                   (Storage.mem_updateAnalysisFeedback id c store).2) in
  let body := Routes.feedback_request "missing" true in
  (forall id c existing,
     Routes.parseFeedback body = Some (id, c) ->
     getById id [] <> ChartAnalyzer.Returned (Some existing))
  /\ exists status message,
      Routes.postFeedback Storage.Analyses getById update body 1 [] ∅
      = (Routes.Failed status message, [], ∅)
      /\ (status = 400 \/ status = 404 \/ status = 500).
Proof.
  intros getById update body.
  assert (Hnone : forall id c existing,
             Routes.parseFeedback body = Some (id, c) ->
             getById id [] <> ChartAnalyzer.Returned (Some existing))
    by (intros id c existing _; discriminate).
  split; [exact Hnone|].
  exact (postFeedback_rejection_changes_nothing Storage.Analyses getById update
           body 1 [] ∅ Hnone).
Defined.

(** X26.  The learning table of the process is updated before the
    feedback is persisted, and [DatabaseStorage.updateAnalysisFeedback]
    answers a failed [update] with null: when the analysis is found and the
    update of its row throws, the route answers 200 with the body null, the
    database is as it was, and the verdict has been counted for the pattern
    of the analysis all the same. *)
Theorem postFeedback_learns_before_persisting :
  forall health patternQuery id c now db learned row,
    health.(Storage.selectAnalyses) = true ->
    health.(Storage.updateAnalyses) = false ->
    Storage.map_get id db.(Storage.db_analyses) = Some row ->
    exists d,
      Routes.postFeedbackDb health patternQuery
                            (Routes.feedback_request id c) now db learned
      = (Routes.Sent None, db,
         <[row.(Storage.a_analysis).(Openai.pattern) := d]> learned)
      /\ d.(Openai.feedbackCount)
         = default 0 (Openai.feedbackCount
                        <$> learned !! row.(Storage.a_analysis).(Openai.pattern))
           + 1.
Proof.
  intros health query id c now db learned row Hselect Hupdate Hget.
  unfold Routes.postFeedbackDb, Routes.postFeedback. simpl.
  unfold Storage.db_getAnalysisById, Storage.db_updateAnalysisFeedback.
  rewrite Hselect, Hupdate, Hget. simpl.
  rewrite LearningFacts.updateLearningModel_insert.
  eexists. split; [reflexivity|]. simpl.
  destruct (learned !! Openai.pattern (Storage.a_analysis row)); reflexivity.
Qed.

Lemma postFeedback_learns_before_persisting_witness :
  let health := {| Storage.selectAnalyses := true;
                   Storage.updateAnalyses := false;
                   Storage.learningQueries := true;
                   Storage.pairQueries := true;
                   Storage.statsQueries := true |} in
  let row := {| Storage.a_analysis := Openai.analysis_of "Doji Formation";
                Storage.a_patternId := Some 3;
                Storage.a_pairId := None |} in
  let db := {| Storage.db_analyses := [("a1"%string, row)];
               Storage.db_patternLearning := Storage.emptyTable;
               Storage.db_pairPatterns := Storage.emptyPairPatterns;
               Storage.db_aiStats := None |} in
  Storage.map_get "a1" db.(Storage.db_analyses) = Some row
  /\ exists d,
      Routes.postFeedbackDb health (Some 0)
                            (Routes.feedback_request "a1" true) 1 db ∅
      = (Routes.Sent None, db,
         <[row.(Storage.a_analysis).(Openai.pattern) := d]> ∅)
      /\ d.(Openai.feedbackCount)
         = default 0 (Openai.feedbackCount
                        <$> (∅ : gmap string Openai.PatternData)
                              !! row.(Storage.a_analysis).(Openai.pattern))
           + 1.
Proof.
  intros health row db.
  assert (Hget : Storage.map_get "a1" db.(Storage.db_analyses) = Some row)
    by reflexivity.
  split; [exact Hget|].
  exact (postFeedback_learns_before_persisting health (Some 0) "a1"%string
           true 1 db ∅ row eq_refl eq_refl Hget).
Defined.

(* ===================================================================== *)
(** ** The report of the learning statistics                             *)
(* ===================================================================== *)

Module SortFacts.
Import Storage.

Section Sorting.
Context {A : Type} (before : A -> A -> bool).
Hypothesis before_asym : forall x y, before x y = true -> before y x = false.

(** [b] does not come before [a]. *)
Let ordered (a b : A) : Prop := before b a = false.

Lemma sort_insert_HdRel x y l :
  ordered y x -> HdRel ordered y l -> HdRel ordered y (sort_insert before x l).
Proof.
  intros Hyx Hhd. destruct l as [|z l]; simpl.
  - constructor. exact Hyx.
  - destruct (before x z); constructor; [exact Hyx|].
    now inversion Hhd.
Qed.

Lemma sort_insert_Sorted x l :
  Sorted ordered l -> Sorted ordered (sort_insert before x l).
Proof.
  induction 1 as [|y l Hsorted IH Hhd]; simpl.
  - repeat constructor.
  - destruct (before x y) eqn:E.
    + constructor; [constructor; assumption|].
      constructor. unfold ordered. now apply before_asym.
    + constructor; [exact IH|]. now apply sort_insert_HdRel.
Qed.

Lemma stable_sort_Sorted l : Sorted ordered (stable_sort before l).
Proof.
  unfold stable_sort.
  assert (H : forall acc, Sorted ordered acc ->
                          Sorted ordered
                            (fold_left (fun sorted x => sort_insert before x sorted)
                                       l acc)).
  { induction l as [|x l IH]; intros acc Hacc; [exact Hacc|].
    simpl. apply IH, sort_insert_Sorted, Hacc. }
  apply H. constructor.
Qed.

Lemma sort_insert_Permutation x l :
  Permutation (x :: l) (sort_insert before x l).
Proof.
  induction l as [|y l IH]; simpl; [reflexivity|].
  destruct (before x y); [reflexivity|].
  rewrite perm_swap. now apply perm_skip.
Qed.

Lemma stable_sort_Permutation l : Permutation l (stable_sort before l).
Proof.
  unfold stable_sort.
  assert (H : forall acc,
             Permutation (acc ++ l)
               (fold_left (fun sorted x => sort_insert before x sorted) l acc)).
  { induction l as [|x l IH]; intros acc; simpl.
    - now rewrite app_nil_r.
    - transitivity (sort_insert before x acc ++ l); [|apply IH].
      transitivity ((x :: acc) ++ l).
      + symmetry. apply Permutation_middle.
      + apply Permutation_app_tail, sort_insert_Permutation. }
  exact (H []).
Qed.

End Sorting.

Lemma Sorted_firstn {A} (R : A -> A -> Prop) n l :
  Sorted R l -> Sorted R (firstn n l).
Proof.
  intros Hsorted. revert n.
  induction Hsorted as [|x l Hsorted IH Hhd]; intros [|n]; simpl;
    try constructor.
  - apply IH.
  - destruct Hhd; destruct n; simpl; constructor. assumption.
Qed.

Lemma Sorted_map {A B} (R : A -> A -> Prop) (R' : B -> B -> Prop) (f : A -> B) l :
  (forall a b, R a b -> R' (f a) (f b)) ->
  Sorted R l -> Sorted R' (map f l).
Proof.
  intros Hf. induction 1 as [|x l Hsorted IH Hhd]; simpl; constructor.
  - exact IH.
  - destruct Hhd; simpl; constructor. now apply Hf.
Qed.

End SortFacts.

Module StatsFacts.
Import JS Openai Routes.

(** What every entry of [patternSuccess] keeps. *)
Lemma tally_counts pattern hit table :
  Forall (fun e => 1 <= (snd e).(count)
                   /\ 0 <= (snd e).(correct) <= (snd e).(count)) table ->
  Forall (fun e => 1 <= (snd e).(count)
                   /\ 0 <= (snd e).(correct) <= (snd e).(count))
         (tally pattern hit table).
Proof.
  induction 1 as [|[k s] table Hs Htable IH]; simpl.
  - constructor; [|constructor]. simpl. destruct hit; lia.
  - destruct (String.eqb k pattern); constructor; try assumption.
    simpl in *. destruct hit; lia.
Qed.

Lemma patternSuccess_counts items :
  Forall (fun e => 1 <= (snd e).(count)
                   /\ 0 <= (snd e).(correct) <= (snd e).(count))
         (patternSuccess items).
Proof.
  unfold patternSuccess.
  assert (H : forall table,
             Forall (fun e => 1 <= (snd e).(count)
                              /\ 0 <= (snd e).(correct) <= (snd e).(count))
                    table ->
             Forall (fun e => 1 <= (snd e).(count)
                              /\ 0 <= (snd e).(correct) <= (snd e).(count))
                    (fold_left (fun table item =>
                                  tally item.(h_pattern)
                                        match item.(h_feedback) with
                                        | Some true => true
                                        | _ => false
                                        end table) items table)).
  { induction items as [|item items IH]; intros table Htable; [exact Htable|].
    simpl. apply IH, tally_counts, Htable. }
  apply H. constructor.
Qed.

Lemma rate_range s :
  1 <= s.(count) -> 0 <= s.(correct) <= s.(count) ->
  (0 <= rate s <= 100)%Q.
Proof.
  intros Hcount Hcorrect. unfold rate.
  apply BlendFacts.percentage_range; [exact Hcorrect|lia].
Qed.

Lemma round1_range x : (0 <= x <= 100)%Q -> (0 <= round1 x <= 100)%Q.
Proof.
  intros Hx. unfold round1.
  pose proof (BlendFacts.Math_round_range 0 1000 (x * 10)) as H.
  change (inject_Z 0) with 0%Q in H. change (inject_Z 1000) with 1000%Q in H.
  destruct H as [H0 H1]; [lra|].
  apply AiStatsFacts.inject_Z_nonneg in H0.
  assert (H1' : (inject_Z (Math_round (x * 10)) <= 1000)%Q).
  { change 1000%Q with (inject_Z 1000). now rewrite <- Zle_Qle. }
  split; [apply Qle_shift_div_l; lra|apply Qle_shift_div_r; lra].
Qed.

Lemma round1_monotone x y : (x <= y)%Q -> (round1 x <= round1 y)%Q.
Proof.
  intros Hxy. unfold round1, Math_round.
  assert (H : Qfloor (x * 10 + (1 # 2)) <= Qfloor (y * 10 + (1 # 2)))
    by (apply Qfloor_resp_le; lra).
  rewrite Zle_Qle in H.
  apply Qle_shift_div_l; [lra|].
  set (a := inject_Z (Qfloor (x * 10 + (1 # 2)))) in *.
  set (b := inject_Z (Qfloor (y * 10 + (1 # 2)))) in *.
  assert (E : (a / 10 * 10 == a)%Q) by (field).
  rewrite E. exact H.
Qed.

Lemma note_members pattern keys p :
  In p (note pattern keys) <-> p = pattern \/ In p keys.
Proof.
  induction keys as [|k keys IH]; simpl.
  - split; [intros [H|[]]; left; congruence|intros [H|[]]; left; congruence].
  - destruct (String.eqb_spec k pattern) as [E|E]; simpl.
    + subst k. split; [tauto|]. intros [H|H]; [left; congruence|exact H].
    + rewrite IH. split; [tauto|]. tauto.
Qed.

Lemma note_NoDup pattern keys :
  List.NoDup keys -> List.NoDup (note pattern keys).
Proof.
  induction 1 as [|k keys Hk Hkeys IH]; simpl.
  - constructor; [tauto|constructor].
  - destruct (String.eqb_spec k pattern) as [E|E].
    + constructor; assumption.
    + constructor; [|exact IH].
      rewrite note_members. intros [H|H]; [congruence|contradiction].
Qed.

Lemma patternKeys_spec history :
  List.NoDup (patternKeys history)
  /\ forall p, In p (patternKeys history) <-> In p (map h_pattern history).
Proof.
  unfold patternKeys.
  assert (H : forall keys,
             List.NoDup keys ->
             let result :=
               fold_left (fun keys item => note item.(h_pattern) keys)
                         history keys in
             List.NoDup result
             /\ forall p, In p result
                          <-> In p keys \/ In p (map h_pattern history)).
  { induction history as [|item history IH]; intros keys Hkeys; simpl.
    - split; [exact Hkeys|]. intros p. tauto.
    - destruct (IH (note (h_pattern item) keys) (note_NoDup _ _ Hkeys))
        as [Hnodup Hmem].
      split; [exact Hnodup|]. intros p. rewrite Hmem, note_members.
      split; [intros [[H|H]|H]|intros [H|[H|H]]]; auto. }
  destruct (H [] (List.NoDup_nil _)) as [Hnodup Hmem].
  split; [exact Hnodup|]. intros p. rewrite Hmem. simpl. tauto.
Qed.

Lemma In_firstn {A} n (l : list A) x : In x (firstn n l) -> In x l.
Proof.
  revert n. induction l as [|y l IH]; intros [|n]; simpl; try tauto.
  intros [H|H]; [left; exact H|right; exact (IH n H)].
Qed.

End StatsFacts.

(** X27.  The report of the learning statistics is consistent: the items
    with feedback are at most the analyses, the patterns learned are the
    different pattern names of the history, each counted once, and the
    overall accuracy is a percentage, within [0, 100] (0 without
    feedback, which is never divided by). *)
Theorem aiStats_report_is_consistent :
  forall history,
    let report := Routes.aiStats history in
    0 <= report.(Routes.rp_feedbackCount) <= report.(Routes.rp_totalAnalyses)
    /\ report.(Routes.rp_totalAnalyses) = Z.of_nat (length history)
    /\ report.(Routes.rp_patternsLearned)
       = Z.of_nat (length (nodup string_dec (map Openai.h_pattern history)))
    /\ (0 <= report.(Routes.rp_overallAccuracy) <= 100)%Q.
Proof.
  intros history report. unfold report, Routes.aiStats.
  cbn [Routes.rp_feedbackCount Routes.rp_totalAnalyses
       Routes.rp_patternsLearned Routes.rp_overallAccuracy].
  set (feedbackItems := List.filter _ history).
  pose proof (List.filter_length_le
                (fun item => match Openai.h_feedback item with
                             | Some _ => true
                             | None => false
                             end) history) as Hlen.
  fold feedbackItems in Hlen.
  split; [lia|]. split; [reflexivity|]. split.
  - destruct (StatsFacts.patternKeys_spec history) as [Hnodup Hmem].
    f_equal. apply Nat.le_antisymm.
    + apply List.NoDup_incl_length; [exact Hnodup|].
      intros p Hp. apply nodup_In, Hmem, Hp.
    + apply List.NoDup_incl_length; [apply NoDup_nodup|].
      intros p Hp. apply Hmem. now apply nodup_In in Hp.
  - apply StatsFacts.round1_range.
    destruct (Z.eqb_spec (Z.of_nat (length feedbackItems)) 0) as [E|E]; [lra|].
    apply BlendFacts.percentage_range; [|lia].
    split; [lia|]. apply Nat2Z.inj_le, List.filter_length_le.
Qed.

(** X28.  The top patterns of the report: at most five, each with at least
    two items with feedback and an accuracy within [0, 100], the most
    accurate first. *)
Theorem aiStats_top_patterns_are_ranked :
  forall history,
    let top := (Routes.aiStats history).(Routes.rp_topPatterns) in
    (length top <= 5)%nat
    /\ Forall (fun t => 2 <= t.(Routes.tp_samples)
                        /\ (0 <= t.(Routes.tp_accuracy) <= 100)%Q) top
    /\ Sorted (fun a b => (b.(Routes.tp_accuracy) <= a.(Routes.tp_accuracy))%Q)
              top.
Proof.
  intros history top. unfold top, Routes.aiStats. cbn [Routes.rp_topPatterns].
  set (feedbackItems := List.filter _ history).
  set (candidates := List.filter _ (Routes.patternSuccess feedbackItems)).
  set (before := fun a b : string * Routes.Success =>
                   negb (Qle_bool (Routes.rate (snd a)) (Routes.rate (snd b)))).
  repeat split.
  - rewrite length_map. apply firstn_le_length.
  - apply List.Forall_map, List.Forall_forall. intros e He.
    apply StatsFacts.In_firstn in He.
    apply (Permutation_in _
             (Permutation_sym (SortFacts.stable_sort_Permutation before candidates)))
      in He.
    apply List.filter_In in He as [He Htwo].
    pose proof (StatsFacts.patternSuccess_counts feedbackItems) as Hall.
    rewrite List.Forall_forall in Hall. destruct (Hall e He) as [Hc Hk].
    cbn [Routes.tp_samples Routes.tp_accuracy]. split.
    + now apply Z.leb_le in Htwo.
    + apply StatsFacts.round1_range, StatsFacts.rate_range; assumption.
  - apply (SortFacts.Sorted_map
             (fun a b => before b a = false) _ _).
    + intros a b Hab. cbn [Routes.tp_accuracy].
      apply StatsFacts.round1_monotone.
      unfold before in Hab. apply negb_false_iff in Hab.
      now apply Qle_bool_iff in Hab.
    + apply SortFacts.Sorted_firstn, SortFacts.stable_sort_Sorted.
      intros x y Hxy. unfold before in *.
      apply negb_true_iff in Hxy. apply negb_false_iff.
      apply Qle_bool_iff.
      destruct (Qlt_le_dec (Routes.rate (snd y)) (Routes.rate (snd x)))
        as [H|H]; [|].
      * apply Qlt_le_weak. 
        destruct (Qle_bool (Routes.rate (snd x)) (Routes.rate (snd y))) eqn:E;
          [discriminate|].
        apply Qnot_le_lt. intros Hle. apply Qle_bool_iff in Hle. congruence.
      * exfalso. apply Qle_bool_iff in H. congruence.
Qed.

(* ===================================================================== *)
(** ** The storage in memory                                             *)
(* ===================================================================== *)

Module MemFacts.
Import Storage.

Lemma map_get_set {V} key key' (value : V) m :
  map_get key' (map_set key value m)
  = if String.eqb key key' then Some value else map_get key' m.
Proof.
  induction m as [|[k v] m IH]; simpl.
  - rewrite String.eqb_sym. destruct (String.eqb key' key); reflexivity.
  - destruct (String.eqb_spec k key) as [E|E]; simpl.
    + subst k. destruct (String.eqb key key'); reflexivity.
    + rewrite IH. destruct (String.eqb_spec k key') as [E'|E'];
        [|reflexivity].
      subst k. destruct (String.eqb_spec key key'); [congruence|reflexivity].
Qed.

Lemma map_set_length {V} key (value : V) m :
  length (map_set key value m)
  = (length m + match map_get key m with Some _ => 0 | None => 1 end)%nat.
Proof.
  induction m as [|[k v] m IH]; simpl; [reflexivity|].
  destruct (String.eqb k key); simpl; [lia|]. rewrite IH. reflexivity.
Qed.

End MemFacts.

(** X29.  Saving and reading back in [MemStorage]: after [saveAnalysis]
    the analysis is found under its id, with that id, every other id reads
    as before, and the store has grown by one exactly when the id is new;
    [updateAnalysisFeedback] returns and stores the analysis with the
    verdict as its feedback, [null] and no change for an unknown id, and
    never changes the number of analyses. *)
Theorem mem_storage_round_trip :
  forall id analysis isCorrect analyses id',
    let saved := Storage.mem_saveAnalysis id analysis analyses in
    let updated := Storage.mem_updateAnalysisFeedback id isCorrect analyses in
    saved.1 = Storage.with_id id analysis
    /\ Storage.mem_getAnalysisById id' saved.2
       = (if String.eqb id id' then Some (Storage.with_id id analysis)
          else Storage.mem_getAnalysisById id' analyses)
    /\ length saved.2
       = (length analyses
          + match Storage.mem_getAnalysisById id analyses with
            | Some _ => 0
            | None => 1
            end)%nat
    /\ updated.1
       = option_map (fun a => Storage.with_feedback a isCorrect)
                    (Storage.mem_getAnalysisById id analyses)
    /\ Storage.mem_getAnalysisById id' updated.2
       = (if String.eqb id id' then updated.1
          else Storage.mem_getAnalysisById id' analyses)
    /\ length updated.2 = length analyses.
Proof.
  intros id analysis isCorrect analyses id' saved updated.
  unfold saved, updated, Storage.mem_saveAnalysis,
    Storage.mem_updateAnalysisFeedback, Storage.mem_getAnalysisById.
  cbn [fst snd]. split; [reflexivity|].
  split; [apply MemFacts.map_get_set|].
  split; [apply MemFacts.map_set_length|].
  destruct (Storage.map_get id analyses) as [a|] eqn:Hget; cbn [fst snd option_map].
  - split; [reflexivity|]. split; [apply MemFacts.map_get_set|].
    rewrite MemFacts.map_set_length, Hget. lia.
  - split; [reflexivity|]. split; [|reflexivity].
    destruct (String.eqb_spec id id') as [<-|_]; [exact Hget|reflexivity].
Qed.

(** X30.  The history of [MemStorage] holds every stored analysis once, as
    a history item, the newest first. *)
Theorem mem_history_is_sorted_newest_first :
  forall getTime analyses,
    let history := Storage.mem_getAnalysisHistory getTime analyses in
    Permutation (map Storage.history_item (map snd analyses)) history
    /\ Sorted (fun a b => getTime b.(Openai.h_timestamp)
                          <= getTime a.(Openai.h_timestamp))
              history.
Proof.
  intros getTime analyses history. unfold history, Storage.mem_getAnalysisHistory.
  set (before := fun a b : Openai.TAnalysisResult =>
                   getTime b.(Openai.timestamp) <? getTime a.(Openai.timestamp)).
  split.
  - apply Permutation_map, SortFacts.stable_sort_Permutation.
  - apply (SortFacts.Sorted_map (fun a b => before b a = false) _ _).
    + intros a b Hab. unfold before in Hab. simpl.
      apply Z.ltb_ge in Hab. exact Hab.
    + apply SortFacts.stable_sort_Sorted.
      intros x y Hxy. unfold before in *.
      apply Z.ltb_lt in Hxy. apply Z.ltb_ge. lia.
Qed.
